(** * OpenMetadata aggregation facade: a shallow embedding of [src/temp.py]

    The module under study fans out REST calls to an OpenMetadata
    catalog (service, databases, schemas, tables, table details),
    normalises the decoded JSON payloads into nested model records and
    computes summary statistics.  This file embeds

    - the decoded JSON values and the Python operations the code applies
      to them ([.get], truthiness, iteration, [len]);
    - exceptions as an error type ([result]) and the HTTP session as an
      explicit world-passing effect ([M]);
    - every normaliser, the hierarchy walker, the summary aggregator and
      the three endpoints that use them;

    and then states and proves the properties of the specification. *)

From Stdlib Require Import String Ascii List ZArith Bool Lia QArith DecimalString.
From stdpp Require Import gmap strings.
Import ListNotations.
Set Warnings "-register-all,-clear-no-such-hyp".
Close Scope Q_scope.
Open Scope string_scope.

(* ================================================================== *)
(** ** Decoded JSON values *)
(* ================================================================== *)

(** What [response.json()] returns.  A Python [dict] is kept as an
    association list in insertion order (iteration over a dict yields
    its keys in that order); lookup takes the first binding of a key, a
    decoded dict having one binding per key.  A number literal with a
    fraction or exponent is kept as an exact rational: the code only
    tests numbers for zero and passes them on. *)
Inductive json : Type :=
| JNull
| JBool (b : bool)
| JInt (n : Z)
| JReal (q : Q)
| JStr (s : string)
| JArr (items : list json)
| JObj (fields : list (string * json)).

(** Python's [bool(x)]. *)
Definition py_truthy (j : json) : bool :=
  match j with
  | JNull => false
  | JBool b => b
  | JInt n => negb (n =? 0)%Z
  | JReal q => negb (Qnum q =? 0)%Z
  | JStr s => negb (String.eqb s "")
  | JArr l => match l with [] => false | _ => true end
  | JObj l => match l with [] => false | _ => true end
  end.

(** [isinstance(x, dict)]. *)
Definition is_dict (j : json) : bool :=
  match j with JObj _ => true | _ => false end.

(** [type(x).__name__], used in the text of Python's error messages. *)
Definition py_type_name (j : json) : string :=
  match j with
  | JNull => "NoneType"
  | JBool _ => "bool"
  | JInt _ => "int"
  | JReal _ => "float"
  | JStr _ => "str"
  | JArr _ => "list"
  | JObj _ => "dict"
  end.

(* ================================================================== *)
(** ** Exceptions and results *)
(* ================================================================== *)

(** The HTTP response object of [requests]: status line, final URL and
    the decoded body ([None] when the body is not valid JSON). *)
Record Response : Type := mkResponse {
  status_code : Z;
  reason : string;
  url : string;
  body : option json;
  text : string
}.

(** The exception classes that occur.  [HTTPException] is FastAPI's
    (status and detail are what the caller receives); [HTTPError] is
    [requests.HTTPError] with its optional [.response]; a
    [RequestException] is any other fault of [requests] (connection
    error, timeout, undecodable body).  All of them derive from
    [Exception]. *)
Inductive exn : Type :=
| HTTPException (status : Z) (detail : string)
| HTTPError (response : option Response) (msg : string)
| RequestException (msg : string)
| AttributeError (msg : string)
| TypeError (msg : string)
| ValidationError (msg : string).

(** Decimal rendering of an integer, as in an f-string. *)
Definition string_of_Z (z : Z) : string := NilZero.string_of_int (Z.to_int z).

(** [str(e)]. *)
Definition exn_str (e : exn) : string :=
  match e with
  | HTTPException st d => string_of_Z st +:+ ": " +:+ d
  | HTTPError _ m => m
  | RequestException m => m
  | AttributeError m => m
  | TypeError m => m
  | ValidationError m => m
  end.

Definition is_HTTPError (e : exn) : bool :=
  match e with HTTPError _ _ => true | _ => false end.

Definition is_HTTPException (e : exn) : bool :=
  match e with HTTPException _ _ => true | _ => false end.

Inductive result (A : Type) : Type :=
| Ok (a : A)
| Raise (e : exn).
Arguments Ok {A} a.
Arguments Raise {A} e.

Definition rbind {A B} (r : result A) (k : A -> result B) : result B :=
  match r with
  | Ok a => k a
  | Raise e => Raise e
  end.

Notation "'let?' x ':=' e 'in' k" := (rbind e (fun x => k))
  (at level 10, x name, e at level 100, k at level 200).

Fixpoint mapM {A B} (f : A -> result B) (l : list A) : result (list B) :=
  match l with
  | [] => Ok []
  | x :: xs =>
      let? y := f x in
      let? ys := mapM f xs in
      Ok (y :: ys)
  end.

Definition is_ok {A} (r : result A) : bool :=
  match r with Ok _ => true | Raise _ => false end.

(* ================================================================== *)
(** ** Python operations on decoded values *)
(* ================================================================== *)

Fixpoint dict_lookup (d : list (string * json)) (k : string) : option json :=
  match d with
  | [] => None
  | (k', v) :: rest => if String.eqb k' k then Some v else dict_lookup rest k
  end.

(** [d.get(k, dflt)] on a dict. *)
Definition dict_get (d : list (string * json)) (k : string) (dflt : json) : json :=
  match dict_lookup d k with
  | Some v => v
  | None => dflt
  end.

Definition no_attribute_get (j : json) : exn :=
  AttributeError ("'" +:+ py_type_name j +:+ "' object has no attribute 'get'").

(** [x.get(k, dflt)] on any decoded value: only a dict has [.get]. *)
Definition py_get (j : json) (k : string) (dflt : json) : result json :=
  match j with
  | JObj d => Ok (dict_get d k dflt)
  | _ => Raise (no_attribute_get j)
  end.

Definition chars_of (s : string) : list json :=
  map (fun c => JStr (String c "")) (list_ascii_of_string s).

Definition keys_of (d : list (string * json)) : list json :=
  map (fun kv => JStr (fst kv)) d.

(** [for x in v]: lists yield their items, strings their characters,
    dicts their keys; anything else is not iterable. *)
Definition py_iter (j : json) : result (list json) :=
  match j with
  | JArr l => Ok l
  | JStr s => Ok (chars_of s)
  | JObj d => Ok (keys_of d)
  | _ => Raise (TypeError ("'" +:+ py_type_name j +:+ "' object is not iterable"))
  end.

(** [len(v)].  A [string] is a sequence of 8-bit characters: the
    length and the iteration of a [JStr] are those of Python for ASCII
    text; for other text they count the bytes of its encoding, where
    Python counts code points.  The values measured by the code
    (["columns"], ["data"]) are lists in the answers of the catalog. *)
Definition py_len (j : json) : result nat :=
  match j with
  | JArr l => Ok (length l)
  | JStr s => Ok (String.length s)
  | JObj d => Ok (length d)
  | _ => Raise (TypeError ("object of type '" +:+ py_type_name j +:+ "' has no len()"))
  end.

(** [x.get(k1, {}).get(k2) if x.get(k1) else other], the pattern of
    lines 150, 159, 169 and 326. *)
Definition nested_name (d : list (string * json)) (k1 k2 : string) (other : json) : result json :=
  if py_truthy (dict_get d k1 JNull)
  then py_get (dict_get d k1 (JObj [])) k2 JNull
  else Ok other.

(** [[x.get("name", "") for x in d.get(k, [])]], lines 164, 165, 175. *)
Definition names_of (d : list (string * json)) (k : string) : result (list json) :=
  let? items := py_iter (dict_get d k (JArr [])) in
  mapM (fun x => py_get x "name" (JStr "")) items.

(** Strings *)

Definition lower_ascii (c : ascii) : ascii :=
  let n := nat_of_ascii c in
  if (65 <=? n)%nat && (n <=? 90)%nat then ascii_of_nat (n + 32) else c.

(** [s.lower()] on the ASCII letters. *)
Fixpoint lower (s : string) : string :=
  match s with
  | EmptyString => EmptyString
  | String c s' => String (lower_ascii c) (lower s')
  end.

(** [needle in s]. *)
Fixpoint contains (needle s : string) : bool :=
  String.prefix needle s ||
  match s with
  | EmptyString => false
  | String _ s' => contains needle s'
  end.

(** [sep.join(parts)]. *)
Fixpoint join (sep : string) (parts : list string) : string :=
  match parts with
  | [] => ""
  | [p] => p
  | p :: ps => p +:+ sep +:+ join sep ps
  end.

Fixpoint drop_leading (c : ascii) (l : list ascii) : list ascii :=
  match l with
  | [] => []
  | x :: xs => if Ascii.eqb x c then drop_leading c xs else l
  end.

(** [s.rstrip('/')]. *)
Definition rstrip_slash (s : string) : string :=
  string_of_list_ascii (rev (drop_leading "/"%char (rev (list_ascii_of_string s)))).

(* ================================================================== *)
(** ** The model records (app.schemas) *)
(* ================================================================== *)

(** Modelled from the spec: the pydantic classes of [app.schemas] are
    not part of the sources.  The records below have the fields the
    constructors in [src/temp.py] pass, under their names.  Following
    the data model of the specification, a field whose default is [""]
    is a required string identity and holds a [string]; [tableType],
    whose [.lower()] the summary takes, is an optional string; every
    other scalar field is optional and keeps the decoded value it was
    given ([JNull] for [None]); list-valued fields default to the empty
    list and count fields are natural numbers. *)

Module OwnerModel.
Record t : Type := mk {
  id : json;
  name : string;
  type_ : string;
  fullyQualifiedName : json
}.
End OwnerModel.

Module TagModel.
Record t : Type := mk {
  tagFQN : string;
  description : json;
  source : json
}.
End TagModel.

Module ColumnModel.
Inductive t : Type := mk {
  name : string;
  dataType : json;
  dataTypeDisplay : json;
  description : json;
  ordinalPosition : json;
  constraint : json;
  tags : list TagModel.t;
  nullable : json;
  defaultValue : json;
  precision : json;
  scale : json;
  maxLength : json;
  arrayDataType : json;
  dataLength : json;
  jsonSchema : json;
  fullyQualifiedName : json;
  children : list t;
  customMetrics : json
}.
End ColumnModel.

Module TableModel.
Record t : Type := mk {
  id : string;
  name : string;
  fullyQualifiedName : string;
  tableType : option string;
  description : json;
  displayName : json;
  owners : list OwnerModel.t;
  tags : list TagModel.t;
  columns : list ColumnModel.t;
  column_count : nat;
  tableConstraints : json;
  partitionKeys : json;
  distributionKeys : json;
  sortKeys : json;
  tableProfile : json;
  sampleData : json;
  usageSummary : json;
  lineage : json;
  schemaDefinition : json;
  location : json;
  locationPath : json;
  fileFormat : json;
  retentionPeriod : json;
  sourceUrl : json;
  domains : list string;
  dataProducts : list string;
  lifeCycle : json;
  certification : json;
  votes : json;
  testSuite : json;
  queries : json;
  customMetrics : json;
  sourceHash : json;
  processedLineage : json;
  joins : json;
  followers : list string
}.
End TableModel.

Module SchemaModel.
Record t : Type := mk {
  id : string;
  name : string;
  fullyQualifiedName : string;
  description : json;
  tables : list TableModel.t;
  table_count : nat;
  owners : list OwnerModel.t;
  tags : list TagModel.t;
  retentionPeriod : json
}.
End SchemaModel.

Module DatabaseModel.
Record t : Type := mk {
  id : string;
  name : string;
  fullyQualifiedName : string;
  description : json;
  owners : list OwnerModel.t;
  schemas : list SchemaModel.t;
  schema_count : nat;
  table_count : nat;
  tags : list TagModel.t;
  location : json;
  databaseVersion : json;
  dataProducts : list string;
  usageSummary : json;
  retentionPeriod : json;
  sourceUrl : json;
  domains : list string;
  votes : json;
  lifeCycle : json;
  certification : json;
  followers : list string;
  sourceHash : json;
  default : json
}.
End DatabaseModel.

Module ServiceModel.
Record t : Type := mk {
  id : string;
  name : string;
  serviceType : string;
  description : json;
  displayName : json;
  fullyQualifiedName : string;
  owners : list OwnerModel.t;
  tags : list TagModel.t;
  connection : json;
  version : json;
  ingestionSchedule : json;
  sourceUrl : json;
  domains : list string;
  dataProducts : list string;
  lifeCycle : json;
  certification : json;
  votes : json;
  followers : list string;
  sourceHash : json
}.
End ServiceModel.

Module MetadataSummary.
Record t : Type := mk {
  total_databases : nat;
  total_schemas : nat;
  total_tables : nat;
  total_columns : nat;
  total_views : nat;
  total_owners : nat;
  total_tags : nat;
  data_extraction_timestamp : string
}.
End MetadataSummary.

(** The [summary_stats] dict of [_process_databases]. *)
Module SummaryStats.
Record t : Type := mk {
  total_databases : nat;
  total_schemas : nat;
  total_tables : nat;
  total_columns : nat
}.
End SummaryStats.

Module DatabaseMetadataResponse.
Record t : Type := mk {
  service : ServiceModel.t;
  databases : list DatabaseModel.t;
  summary : MetadataSummary.t
}.
End DatabaseMetadataResponse.

Module TableFilterInfo.
Record t : Type := mk {
  database_name : option string;
  schema_name : option string;
  include_columns : bool
}.
End TableFilterInfo.

Module TablesResponse.
Record t : Type := mk {
  service_name : string;
  filter : TableFilterInfo.t;
  tables : list TableModel.t;
  count : nat
}.
End TablesResponse.

Module MessageResponse.
Record t : Type := mk {
  message : string
}.
End MessageResponse.

(** Modelled from the spec: validation of a required string field by
    the model constructor.  A decoded value that is not a string is
    rejected with a validation error (the text of pydantic's message is
    not reproduced). *)
Definition str_field (field : string) (v : json) : result string :=
  match v with
  | JStr s => Ok s
  | _ => Raise (ValidationError (field +:+ ": string expected"))
  end.

(** Modelled from the spec: validation of an optional string field. *)
Definition opt_str_field (field : string) (v : json) : result (option string) :=
  match v with
  | JNull => Ok None
  | JStr s => Ok (Some s)
  | _ => Raise (ValidationError (field +:+ ": string expected"))
  end.

(* ================================================================== *)
(** ** Model Normalizer: owners, tags, columns, tables, services *)
(* ================================================================== *)

(** [TagModel(tagFQN=tag.get("tagFQN", ""), description=tag.get("description"),
    source=tag.get("source"))], the expression of lines 46-50, 140-144,
    239-243, 320-324, 399-403, 748-752 and 774-778. *)
Definition tag_model (tag : json) : result TagModel.t :=
  match tag with
  | JObj d =>
      let? fqn := str_field "tagFQN" (dict_get d "tagFQN" (JStr "")) in
      Ok {| TagModel.tagFQN := fqn;
            TagModel.description := dict_get d "description" JNull;
            TagModel.source := dict_get d "source" JNull |}
  | _ => Raise (no_attribute_get tag)
  end.

(** [[TagModel(...) for tag in x.get("tags", [])]]. *)
Definition tag_models (d : list (string * json)) : result (list TagModel.t) :=
  let? items := py_iter (dict_get d "tags" (JArr [])) in
  mapM tag_model items.

(** [OwnerModel(id=owner.get("id"), name=owner.get("name", ""),
    type=owner.get("type", ""), fullyQualifiedName=owner.get("fullyQualifiedName"))],
    lines 132-137, 231-236, 288-293, 391-396 and 766-771. *)
Definition owner_model (owner : json) : result OwnerModel.t :=
  match owner with
  | JObj d =>
      let? nm := str_field "name" (dict_get d "name" (JStr "")) in
      let? ty := str_field "type" (dict_get d "type" (JStr "")) in
      Ok {| OwnerModel.id := dict_get d "id" JNull;
            OwnerModel.name := nm;
            OwnerModel.type_ := ty;
            OwnerModel.fullyQualifiedName := dict_get d "fullyQualifiedName" JNull |}
  | _ => Raise (no_attribute_get owner)
  end.

(** [[OwnerModel(...) for owner in x.get("owners", [])]]. *)
Definition owner_models (d : list (string * json)) : result (list OwnerModel.t) :=
  let? items := py_iter (dict_get d "owners" (JArr [])) in
  mapM owner_model items.

(** The keyword arguments of [ColumnModel(...)] in [_create_column_model]
    (lines 36-67), evaluated in the order they are written, for a dict
    [d]; [children] is the outcome of the comprehension of lines 63-65,
    which Python evaluates after [maxLength] and before [customMetrics].
    The model is validated once all arguments are there. *)
Definition column_fields (d : list (string * json))
    (children : result (list ColumnModel.t)) : result ColumnModel.t :=
  let data_type_info := dict_get d "dataType" (JObj []) in
  let? dataType :=
    if is_dict data_type_info then py_get data_type_info "name" JNull
    else Ok (dict_get d "dataType" JNull) in
  let? dataTypeDisplay :=
    if py_truthy (dict_get d "dataTypeDisplay" JNull)
    then Ok (dict_get d "dataTypeDisplay" JNull)
    else py_get data_type_info "displayName" JNull in
  let? constraint :=
    if is_dict (dict_get d "constraint" JNull)
    then py_get (dict_get d "constraint" (JObj [])) "name" JNull
    else Ok (dict_get d "constraint" JNull) in
  let? tags := tag_models d in
  let? precision :=
    if is_dict data_type_info then py_get data_type_info "precision" JNull else Ok JNull in
  let? scale :=
    if is_dict data_type_info then py_get data_type_info "scale" JNull else Ok JNull in
  let? maxLength :=
    if is_dict data_type_info then py_get data_type_info "length" JNull else Ok JNull in
  let? children := children in
  let? name := str_field "name" (dict_get d "name" (JStr "")) in
  Ok {| ColumnModel.name := name;
        ColumnModel.dataType := dataType;
        ColumnModel.dataTypeDisplay := dataTypeDisplay;
        ColumnModel.description := dict_get d "description" JNull;
        ColumnModel.ordinalPosition := dict_get d "ordinalPosition" JNull;
        ColumnModel.constraint := constraint;
        ColumnModel.tags := tags;
        ColumnModel.nullable := dict_get d "nullable" JNull;
        ColumnModel.defaultValue := dict_get d "defaultValue" JNull;
        ColumnModel.precision := precision;
        ColumnModel.scale := scale;
        ColumnModel.maxLength := maxLength;
        ColumnModel.arrayDataType := dict_get d "arrayDataType" JNull;
        ColumnModel.dataLength := dict_get d "dataLength" JNull;
        ColumnModel.jsonSchema := dict_get d "jsonSchema" JNull;
        ColumnModel.fullyQualifiedName := dict_get d "fullyQualifiedName" JNull;
        ColumnModel.children := children;
        ColumnModel.customMetrics := dict_get d "customMetrics" JNull |}.

(** [_create_column_model] (lines 34-67).  The recursion follows the
    payload: the function descends into the value bound to ["children"]
    (the first binding, as [dict_get] does), so it is structural and
    needs no depth bound.  [create_column_model_eq] below restates it in
    the words of the source, with [dict_get], [py_iter] and [mapM]. *)
Fixpoint _create_column_model (column_data : json) : result ColumnModel.t :=
  match column_data with
  | JObj d =>
      column_fields d
        ((fix children_of (fields : list (string * json)) : result (list ColumnModel.t) :=
            match fields with
            | [] => Ok []
            | (k, v) :: rest =>
                if String.eqb k "children" then
                  match v with
                  | JArr items =>
                      (fix each (l : list json) : result (list ColumnModel.t) :=
                         match l with
                         | [] => Ok []
                         | child :: l' =>
                             let? c := _create_column_model child in
                             let? cs := each l' in
                             Ok (c :: cs)
                         end) items
                  | _ =>
                      let? items := py_iter v in
                      mapM (fun child => Raise (no_attribute_get child)) items
                  end
                else children_of rest
            end) d)
  | _ => Raise (no_attribute_get column_data)
  end.

(** The [ColumnModel(...)] expression of [get_service_tables] (lines
    740-754): seven arguments taken as they come; the remaining fields
    keep the defaults of the model class. *)
Definition listing_column_model (col : json) : result ColumnModel.t :=
  match col with
  | JObj d =>
      let? tags := tag_models d in
      let? name := str_field "name" (dict_get d "name" (JStr "")) in
      Ok {| ColumnModel.name := name;
            ColumnModel.dataType := dict_get d "dataType" JNull;
            ColumnModel.dataTypeDisplay := dict_get d "dataTypeDisplay" JNull;
            ColumnModel.description := dict_get d "description" JNull;
            ColumnModel.ordinalPosition := dict_get d "ordinalPosition" JNull;
            ColumnModel.constraint := dict_get d "constraint" JNull;
            ColumnModel.tags := tags;
            ColumnModel.nullable := JNull;
            ColumnModel.defaultValue := JNull;
            ColumnModel.precision := JNull;
            ColumnModel.scale := JNull;
            ColumnModel.maxLength := JNull;
            ColumnModel.arrayDataType := JNull;
            ColumnModel.dataLength := JNull;
            ColumnModel.jsonSchema := JNull;
            ColumnModel.fullyQualifiedName := JNull;
            ColumnModel.children := [];
            ColumnModel.customMetrics := JNull |}
  | _ => Raise (no_attribute_get col)
  end.

(** Validation of a [List[str]] field. *)
Definition str_list_field (field : string) (l : list json) : result (list string) :=
  mapM (str_field field) l.

(** [_create_table_model] (lines 117-176). *)
Definition _create_table_model (table_data : json)
    (include_sample_data include_table_profiles include_lineage : bool)
    : result TableModel.t :=
  match table_data with
  | JObj d =>
      let? columns_list :=
        (let? cols := py_iter (dict_get d "columns" (JArr [])) in
         mapM _create_column_model cols) in
      let? owners := owner_models d in
      let? tags := tag_models d in
      let? column_count := py_len (dict_get d "columns" (JArr [])) in
      let? partitionKeys := nested_name d "tablePartition" "columns" JNull in
      let? location := nested_name d "location" "name" JNull in
      let? domains := names_of d "domains" in
      let? dataProducts := names_of d "dataProducts" in
      let? testSuite := nested_name d "testSuite" "name" JNull in
      let? followers := names_of d "followers" in
      let? id := str_field "id" (dict_get d "id" (JStr "")) in
      let? name := str_field "name" (dict_get d "name" (JStr "")) in
      let? fqn := str_field "fullyQualifiedName" (dict_get d "fullyQualifiedName" (JStr "")) in
      let? tableType := opt_str_field "tableType" (dict_get d "tableType" JNull) in
      let? domains := str_list_field "domains" domains in
      let? dataProducts := str_list_field "dataProducts" dataProducts in
      let? followers := str_list_field "followers" followers in
      Ok {| TableModel.id := id;
            TableModel.name := name;
            TableModel.fullyQualifiedName := fqn;
            TableModel.tableType := tableType;
            TableModel.description := dict_get d "description" JNull;
            TableModel.displayName := dict_get d "displayName" JNull;
            TableModel.owners := owners;
            TableModel.tags := tags;
            TableModel.columns := columns_list;
            TableModel.column_count := column_count;
            TableModel.tableConstraints := dict_get d "tableConstraints" JNull;
            TableModel.partitionKeys := partitionKeys;
            TableModel.distributionKeys := dict_get d "distributionKey" JNull;
            TableModel.sortKeys := dict_get d "sortKey" JNull;
            TableModel.tableProfile :=
              if include_table_profiles then dict_get d "tableProfile" JNull else JNull;
            TableModel.sampleData :=
              if include_sample_data then dict_get d "sampleData" JNull else JNull;
            TableModel.usageSummary := dict_get d "usageSummary" JNull;
            TableModel.lineage :=
              if include_lineage then dict_get d "lineage" JNull else JNull;
            TableModel.schemaDefinition := dict_get d "schemaDefinition" JNull;
            TableModel.location := location;
            TableModel.locationPath := dict_get d "locationPath" JNull;
            TableModel.fileFormat := dict_get d "fileFormat" JNull;
            TableModel.retentionPeriod := dict_get d "retentionPeriod" JNull;
            TableModel.sourceUrl := dict_get d "sourceUrl" JNull;
            TableModel.domains := domains;
            TableModel.dataProducts := dataProducts;
            TableModel.lifeCycle := dict_get d "lifeCycle" JNull;
            TableModel.certification := dict_get d "certification" JNull;
            TableModel.votes := dict_get d "votes" JNull;
            TableModel.testSuite := testSuite;
            TableModel.queries := dict_get d "queries" JNull;
            TableModel.customMetrics := dict_get d "customMetrics" JNull;
            TableModel.sourceHash := dict_get d "sourceHash" JNull;
            TableModel.processedLineage := dict_get d "processedLineage" JNull;
            TableModel.joins := dict_get d "joins" JNull;
            TableModel.followers := followers |}
  | _ => Raise (no_attribute_get table_data)
  end.

(** The loop body of [get_service_tables] (lines 736-782): the column
    list is built only when [include_columns] is set and the record has
    a truthy ["columns"]; [column_count] is [len(table.get("columns", []))]
    in either case.  Fields the call does not pass keep the defaults of
    the model class. *)
Definition listing_table_model (include_columns : bool) (table : json) : result TableModel.t :=
  match table with
  | JObj d =>
      let? columns_list :=
        (if include_columns && py_truthy (dict_get d "columns" JNull)
         then (let? cols := py_iter (dict_get d "columns" (JArr [])) in
               mapM listing_column_model cols)
         else Ok []) in
      let? owners := owner_models d in
      let? tags := tag_models d in
      let? column_count := py_len (dict_get d "columns" (JArr [])) in
      let? id := str_field "id" (dict_get d "id" (JStr "")) in
      let? name := str_field "name" (dict_get d "name" (JStr "")) in
      let? fqn := str_field "fullyQualifiedName" (dict_get d "fullyQualifiedName" (JStr "")) in
      let? tableType := opt_str_field "tableType" (dict_get d "tableType" JNull) in
      Ok {| TableModel.id := id;
            TableModel.name := name;
            TableModel.fullyQualifiedName := fqn;
            TableModel.tableType := tableType;
            TableModel.description := dict_get d "description" JNull;
            TableModel.displayName := dict_get d "displayName" JNull;
            TableModel.owners := owners;
            TableModel.tags := tags;
            TableModel.columns := columns_list;
            TableModel.column_count := column_count;
            TableModel.tableConstraints := JNull;
            TableModel.partitionKeys := JNull;
            TableModel.distributionKeys := JNull;
            TableModel.sortKeys := JNull;
            TableModel.tableProfile := JNull;
            TableModel.sampleData := JNull;
            TableModel.usageSummary := JNull;
            TableModel.lineage := JNull;
            TableModel.schemaDefinition := JNull;
            TableModel.location := JNull;
            TableModel.locationPath := JNull;
            TableModel.fileFormat := JNull;
            TableModel.retentionPeriod := JNull;
            TableModel.sourceUrl := JNull;
            TableModel.domains := [];
            TableModel.dataProducts := [];
            TableModel.lifeCycle := JNull;
            TableModel.certification := JNull;
            TableModel.votes := JNull;
            TableModel.testSuite := JNull;
            TableModel.queries := JNull;
            TableModel.customMetrics := JNull;
            TableModel.sourceHash := JNull;
            TableModel.processedLineage := JNull;
            TableModel.joins := JNull;
            TableModel.followers := [] |}
  | _ => Raise (no_attribute_get table)
  end.

(** [_create_service_model] (lines 221-257). *)
Definition _create_service_model (service_data : json) : result ServiceModel.t :=
  match service_data with
  | JObj d =>
      let? owners := owner_models d in
      let? tags := tag_models d in
      let? domains := names_of d "domains" in
      let? dataProducts := names_of d "dataProducts" in
      let? followers := names_of d "followers" in
      let? id := str_field "id" (dict_get d "id" (JStr "")) in
      let? name := str_field "name" (dict_get d "name" (JStr "")) in
      let? serviceType := str_field "serviceType" (dict_get d "serviceType" (JStr "")) in
      let? fqn := str_field "fullyQualifiedName" (dict_get d "fullyQualifiedName" (JStr "")) in
      let? domains := str_list_field "domains" domains in
      let? dataProducts := str_list_field "dataProducts" dataProducts in
      let? followers := str_list_field "followers" followers in
      Ok {| ServiceModel.id := id;
            ServiceModel.name := name;
            ServiceModel.serviceType := serviceType;
            ServiceModel.description := dict_get d "description" JNull;
            ServiceModel.displayName := dict_get d "displayName" JNull;
            ServiceModel.fullyQualifiedName := fqn;
            ServiceModel.owners := owners;
            ServiceModel.tags := tags;
            ServiceModel.connection := dict_get d "connection" JNull;
            ServiceModel.version := dict_get d "version" JNull;
            ServiceModel.ingestionSchedule := dict_get d "ingestionSchedule" JNull;
            ServiceModel.sourceUrl := dict_get d "sourceUrl" JNull;
            ServiceModel.domains := domains;
            ServiceModel.dataProducts := dataProducts;
            ServiceModel.lifeCycle := dict_get d "lifeCycle" JNull;
            ServiceModel.certification := dict_get d "certification" JNull;
            ServiceModel.votes := dict_get d "votes" JNull;
            ServiceModel.followers := followers;
            ServiceModel.sourceHash := dict_get d "sourceHash" JNull |}
  | _ => Raise (no_attribute_get service_data)
  end.

(** The [SchemaModel(...)] expression of lines 383-406, for a schema
    record and the tables already processed. *)
Definition schema_model (schema : json) (tables_list : list TableModel.t)
    (table_count : nat) : result SchemaModel.t :=
  match schema with
  | JObj d =>
      let? owners := owner_models d in
      let? tags := tag_models d in
      let? id := str_field "id" (dict_get d "id" (JStr "")) in
      let? name := str_field "name" (dict_get d "name" (JStr "")) in
      let? fqn := str_field "fullyQualifiedName" (dict_get d "fullyQualifiedName" (JStr "")) in
      Ok {| SchemaModel.id := id;
            SchemaModel.name := name;
            SchemaModel.fullyQualifiedName := fqn;
            SchemaModel.description := dict_get d "description" JNull;
            SchemaModel.tables := tables_list;
            SchemaModel.table_count := table_count;
            SchemaModel.owners := owners;
            SchemaModel.tags := tags;
            SchemaModel.retentionPeriod := dict_get d "retentionPeriod" JNull |}
  | _ => Raise (no_attribute_get schema)
  end.

(** [sum(schema.table_count for schema in schemas_list)], line 302. *)
Definition sum_table_counts (schemas_list : list SchemaModel.t) : nat :=
  list_sum (map SchemaModel.table_count schemas_list).

(** [sum(len(table.columns) for schema in schemas_list for table in schema.tables)],
    line 303. *)
Definition sum_column_counts (schemas_list : list SchemaModel.t) : nat :=
  list_sum (map (fun t => length (TableModel.columns t))
                (concat (map SchemaModel.tables schemas_list))).

(** The [DatabaseModel(...)] expression of lines 310-340, for a database
    record, its owners (lines 287-294) and its processed schemas. *)
Definition database_model (database : json) (db_owners : list OwnerModel.t)
    (schemas_list : list SchemaModel.t) (db_table_count : nat) : result DatabaseModel.t :=
  match database with
  | JObj d =>
      let? tags := tag_models d in
      let? location := nested_name d "location" "name" (dict_get d "location" JNull) in
      let? dataProducts := names_of d "dataProducts" in
      let? domains := names_of d "domains" in
      let? followers := names_of d "followers" in
      let? id := str_field "id" (dict_get d "id" (JStr "")) in
      let? name := str_field "name" (dict_get d "name" (JStr "")) in
      let? fqn := str_field "fullyQualifiedName" (dict_get d "fullyQualifiedName" (JStr "")) in
      let? dataProducts := str_list_field "dataProducts" dataProducts in
      let? domains := str_list_field "domains" domains in
      let? followers := str_list_field "followers" followers in
      Ok {| DatabaseModel.id := id;
            DatabaseModel.name := name;
            DatabaseModel.fullyQualifiedName := fqn;
            DatabaseModel.description := dict_get d "description" JNull;
            DatabaseModel.owners := db_owners;
            DatabaseModel.schemas := schemas_list;
            DatabaseModel.schema_count := length schemas_list;
            DatabaseModel.table_count := db_table_count;
            DatabaseModel.tags := tags;
            DatabaseModel.location := location;
            DatabaseModel.databaseVersion := dict_get d "version" JNull;
            DatabaseModel.dataProducts := dataProducts;
            DatabaseModel.usageSummary := dict_get d "usageSummary" JNull;
            DatabaseModel.retentionPeriod := dict_get d "retentionPeriod" JNull;
            DatabaseModel.sourceUrl := dict_get d "sourceUrl" JNull;
            DatabaseModel.domains := domains;
            DatabaseModel.votes := dict_get d "votes" JNull;
            DatabaseModel.lifeCycle := dict_get d "lifeCycle" JNull;
            DatabaseModel.certification := dict_get d "certification" JNull;
            DatabaseModel.followers := followers;
            DatabaseModel.sourceHash := dict_get d "sourceHash" JNull;
            DatabaseModel.default := dict_get d "default" JNull |}
  | _ => Raise (no_attribute_get database)
  end.

(* ================================================================== *)
(** ** Summary Aggregator *)
(* ================================================================== *)

(** Truthiness of a Python string. *)
Definition str_truthy (s : string) : bool := negb (String.eqb s "").

(** [all_owners.update(owner.name for owner in owners if owner.name)]. *)
Definition update_owners (all_owners : gset string) (owners : list OwnerModel.t) : gset string :=
  all_owners ∪ list_to_set (map OwnerModel.name
                 (List.filter (fun o => str_truthy (OwnerModel.name o)) owners)).

(** [all_tags.update(tag.tagFQN for tag in tags if tag.tagFQN)]. *)
Definition update_tags (all_tags : gset string) (tags : list TagModel.t) : gset string :=
  all_tags ∪ list_to_set (map TagModel.tagFQN
               (List.filter (fun t => str_truthy (TagModel.tagFQN t)) tags)).

(** The body of [for table in schema.tables] (lines 441-447); the
    accumulator is the pair [(all_owners, all_tags)]. *)
Definition collect_table (acc : gset string * gset string) (table : TableModel.t)
    : gset string * gset string :=
  let all_owners := update_owners (fst acc) (TableModel.owners table) in
  let all_tags := update_tags (snd acc) (TableModel.tags table) in
  let all_tags :=
    fold_left (fun tags column => update_tags tags (ColumnModel.tags column))
              (TableModel.columns table) all_tags in
  (all_owners, all_tags).

(** The body of [for schema in db.schemas] (lines 437-447). *)
Definition collect_schema (acc : gset string * gset string) (schema : SchemaModel.t)
    : gset string * gset string :=
  let all_owners := update_owners (fst acc) (SchemaModel.owners schema) in
  let all_tags := update_tags (snd acc) (SchemaModel.tags schema) in
  fold_left collect_table (SchemaModel.tables schema) (all_owners, all_tags).

(** The body of [for db in databases_list] (lines 433-447). *)
Definition collect_database (acc : gset string * gset string) (db : DatabaseModel.t)
    : gset string * gset string :=
  let all_owners := update_owners (fst acc) (DatabaseModel.owners db) in
  let all_tags := update_tags (snd acc) (DatabaseModel.tags db) in
  fold_left collect_schema (DatabaseModel.schemas db) (all_owners, all_tags).

(** [table.tableType and 'view' in table.tableType.lower()]. *)
Definition is_view (table : TableModel.t) : bool :=
  match TableModel.tableType table with
  | Some ty => str_truthy ty && contains "view" (lower ty)
  | None => false
  end.

(** The tables visited by [for db ... for schema in db.schemas for table
    in schema.tables]. *)
Definition tables_of (databases_list : list DatabaseModel.t) : list TableModel.t :=
  concat (map (fun db => concat (map SchemaModel.tables (DatabaseModel.schemas db)))
              databases_list).

(** [_create_metadata_summary] (lines 413-458).  [now] is
    [datetime.utcnow().isoformat()]. *)
Definition _create_metadata_summary (service_model : ServiceModel.t)
    (databases_list : list DatabaseModel.t) (summary_stats : SummaryStats.t)
    (now : string) : MetadataSummary.t :=
  let total_views :=
    list_sum (map (fun _ => 1) (List.filter is_view (tables_of databases_list))) in
  let all_owners := update_owners ∅ (ServiceModel.owners service_model) in
  let all_tags := update_tags ∅ (ServiceModel.tags service_model) in
  let sets := fold_left collect_database databases_list (all_owners, all_tags) in
  {| MetadataSummary.total_databases := SummaryStats.total_databases summary_stats;
     MetadataSummary.total_schemas := SummaryStats.total_schemas summary_stats;
     MetadataSummary.total_tables := SummaryStats.total_tables summary_stats;
     MetadataSummary.total_columns := SummaryStats.total_columns summary_stats;
     MetadataSummary.total_views := total_views;
     MetadataSummary.total_owners := size (fst sets);
     MetadataSummary.total_tags := size (snd sets);
     MetadataSummary.data_extraction_timestamp := now +:+ "Z" |}.

(* ================================================================== *)
(** ** The HTTP session as an effect *)
(* ================================================================== *)

Inductive http_method : Type := GET | POST.

(** One outbound call: [session.get(url, params=..., timeout=...)] or
    [session.post(url, json=..., timeout=...)]. *)
Record Request : Type := mkRequest {
  method : http_method;
  req_url : string;
  params : list (string * json);
  json_body : option json;
  timeout : Z
}.

(** What the code takes from its surroundings: the upstream catalog
    behind the [requests.Session] (a state [World] and its reaction to a
    call, which is a response or a raised exception), the clock, the
    configured URL ([settings.openmetadata_url]) and Python's [str()] on
    a decoded value, whose rendering is left to the language. *)
Class Env : Type := {
  World : Type;
  send : Request -> World -> result Response * World;
  utcnow_isoformat : World -> string;
  openmetadata_url : string;
  py_str : json -> string
}.

(** [Response.ok]: the status is not in 400..599. *)
Definition response_ok (r : Response) : bool :=
  negb ((400 <=? status_code r)%Z && (status_code r <? 600)%Z).

Definition http_error_msg (r : Response) : string :=
  string_of_Z (status_code r) +:+
  (if (status_code r <? 500)%Z then " Client Error: " else " Server Error: ") +:+
  reason r +:+ " for url: " +:+ url r.

(** [response.raise_for_status()]. *)
Definition raise_for_status (r : Response) : result unit :=
  if response_ok r then Ok tt else Raise (HTTPError (Some r) (http_error_msg r)).

(** [response.json()]. *)
Definition response_json (r : Response) : result json :=
  match body r with
  | Some j => Ok j
  | None => Raise (RequestException "Expecting value: line 1 column 1 (char 0)")
  end.

(** [bool(http_error.response)]: [None] is falsy, and a [Response] is
    truthy exactly when it is [ok] ([Response.__bool__]). *)
Definition error_response_truthy (resp : option Response) : bool :=
  match resp with
  | Some r => response_ok r
  | None => false
  end.

(** [_build_include_params] (lines 17-31). *)
Definition _build_include_params
    (include_sample_data include_table_profiles include_lineage : bool) : list string :=
  let include_params :=
    ["all"; "joins"; "tags"; "owner"; "followers"; "extension"; "domain";
     "dataProducts"; "votes"; "lifeCycle"; "certification"; "sourceHash"] in
  let include_params :=
    if include_sample_data then (include_params ++ ["sampleData"])%list else include_params in
  let include_params :=
    if include_table_profiles then (include_params ++ ["tableProfile"; "profile"])%list
    else include_params in
  let include_params :=
    if include_lineage
    then (include_params ++ ["lineage"; "dataProducts"; "upstream"; "downstream"])%list
    else include_params in
  include_params.

(** The [params] dicts of the five read calls (lines 75-78, 100-103,
    187-191, 266-270 and 360-364). *)
Definition service_fetch_params : list (string * json) :=
  [("include", JStr "all,tags,owners,followers,domain,dataProducts");
   ("fields", JStr "owners,tags,connection,version,ingestionSchedule,sourceUrl,domains,dataProducts,lifeCycle,certification,votes,followers,sourceHash")].

Definition detail_params
    (include_sample_data include_table_profiles include_lineage : bool)
    : list (string * json) :=
  [("include",
    JStr (join "," (_build_include_params
                      include_sample_data include_table_profiles include_lineage)));
   ("fields", JStr "columns,tableConstraints,tablePartition,owners,tags,followers,usageSummary,profile,sampleData,joins,lineage,testSuite,dataModel,location,extension,domain,dataProducts,votes,lifeCycle,certification,sourceUrl,schemaDefinition,retentionPeriod,sourceHash,queries,customMetrics")].

Definition tables_listing_params (schema_fqn : json) : list (string * json) :=
  [("databaseSchema", schema_fqn);
   ("include", JStr "all,tags,owners");
   ("fields", JStr "columns,owners,tags,tableType,description,displayName,tableConstraints,tablePartition,usageSummary")].

Definition schemas_listing_params (database_fqn : json) : list (string * json) :=
  [("database", database_fqn);
   ("include", JStr "all,tags,owners");
   ("fields", JStr "owners,tags,retentionPeriod")].

Definition databases_listing_params (service_name : string) : list (string * json) :=
  [("service", JStr service_name);
   ("include", JStr "all,tags,owners,domain,dataProducts");
   ("fields", JStr "owners,tags,location,version,usageSummary,retentionPeriod,sourceUrl,domains,dataProducts,votes,lifeCycle,certification,followers,sourceHash,default")].

Section Effects.
Context `{Env}.

(** Computations that talk to the upstream: they may change the world
    and end in a value or in a raised exception. *)
Definition M (A : Type) : Type := World -> result A * World.

Definition ret {A} (a : A) : M A := fun w => (Ok a, w).

Definition raise {A} (e : exn) : M A := fun w => (Raise e, w).

Definition lift {A} (r : result A) : M A := fun w => (r, w).

Definition bind {A B} (m : M A) (k : A -> M B) : M B :=
  fun w =>
    match m w with
    | (Ok a, w') => k a w'
    | (Raise e, w') => (Raise e, w')
    end.

(** [try: m except ...: handler]: [handler e] is [None] when no
    [except] clause matches [e]. *)
Definition try_except {A} (m : M A) (handler : exn -> option (M A)) : M A :=
  fun w =>
    match m w with
    | (Ok a, w') => (Ok a, w')
    | (Raise e, w') =>
        match handler e with
        | Some h => h w'
        | None => (Raise e, w')
        end
    end.

End Effects.

Notation "'let!' x ':=' e 'in' k" := (bind e (fun x => k))
  (at level 10, x name, e at level 100, k at level 200).

Section Walker.
Context `{Env}.

Fixpoint mapM_M {A B} (f : A -> M B) (l : list A) : M (list B) :=
  match l with
  | [] => ret []
  | x :: xs =>
      let! y := f x in
      let! ys := mapM_M f xs in
      ret (y :: ys)
  end.

Fixpoint foldM {A S} (f : S -> A -> M S) (l : list A) (s : S) : M S :=
  match l with
  | [] => ret s
  | x :: xs =>
      let! s' := f s x in
      foldM f xs s'
  end.

(** [settings.openmetadata_url.rstrip('/') + '/api/v1']. *)
Definition api_base : string := rstrip_slash openmetadata_url +:+ "/api/v1".

Definition session_get (u : string) (ps : list (string * json)) : M Response :=
  send (mkRequest GET u ps None 30).

Definition session_post (u : string) (payload : json) : M Response :=
  send (mkRequest POST u [] (Some payload) 30).

(** [_fetch_service_metadata] (lines 70-89). *)
Definition _fetch_service_metadata (base_url service_name : string) : M json :=
  try_except
    (let! service_response :=
       session_get (base_url +:+ "/services/databaseServices/name/" +:+ service_name)
         service_fetch_params in
     let! _ := lift (raise_for_status service_response) in
     if negb (status_code service_response =? 200)%Z
     then raise (HTTPException 404 ("Service '" +:+ service_name +:+ "' not found"))
     else lift (response_json service_response))
    (fun e =>
       if is_HTTPError e
       then Some (raise (HTTPException 500
                    ("Failed to fetch service metadata: " +:+ exn_str e)))
       else None).

(** [_fetch_detailed_table_metadata] (lines 92-114).  [None] is
    [JNull]. *)
Definition _fetch_detailed_table_metadata (base_url : string) (table_id : json)
    (include_sample_data include_table_profiles include_lineage : bool) : M json :=
  try_except
    (let! detailed_response :=
       session_get (base_url +:+ "/tables/" +:+ py_str table_id)
         (detail_params include_sample_data include_table_profiles include_lineage) in
     if (status_code detailed_response =? 200)%Z
     then lift (response_json detailed_response)
     else ret JNull)
    (fun e => Some (ret JNull)).

(** The body of [for table in tables] in [_process_database_tables]
    (lines 203-216). *)
Definition process_table (base_url : string)
    (include_sample_data include_table_profiles include_lineage : bool)
    (table : json) : M TableModel.t :=
  let! table_id := lift (py_get table "id" JNull) in
  let! detailed_table :=
    (if py_truthy table_id then
       let! detailed_metadata :=
         _fetch_detailed_table_metadata base_url table_id
           include_sample_data include_table_profiles include_lineage in
       ret (if py_truthy detailed_metadata then detailed_metadata else table)
     else ret table) in
  lift (_create_table_model detailed_table
          include_sample_data include_table_profiles include_lineage).

(** [_process_database_tables] (lines 179-218). *)
Definition _process_database_tables (base_url : string) (schema_data : json)
    (include_sample_data include_table_profiles include_lineage : bool)
    : M (list TableModel.t * nat) :=
  let! schema_fqn := lift (py_get schema_data "fullyQualifiedName" JNull) in
  let! tables_response :=
    session_get (base_url +:+ "/tables") (tables_listing_params schema_fqn) in
  if negb (status_code tables_response =? 200)%Z
  then ret ([], 0)
  else
    let! tables_data := lift (response_json tables_response) in
    let! tables := lift (py_get tables_data "data" (JArr [])) in
    let! items := lift (py_iter tables) in
    let! tables_list :=
      mapM_M (process_table base_url
                include_sample_data include_table_profiles include_lineage) items in
    let! n := lift (py_len tables) in
    ret (tables_list, n).

(** The body of [for schema in schemas] in [_process_database_schemas]
    (lines 377-408). *)
Definition process_schema (base_url : string)
    (include_sample_data include_table_profiles include_lineage : bool)
    (schema : json) : M SchemaModel.t :=
  let! processed :=
    _process_database_tables base_url schema
      include_sample_data include_table_profiles include_lineage in
  lift (schema_model schema (fst processed) (snd processed)).

(** [_process_database_schemas] (lines 354-410). *)
Definition _process_database_schemas (base_url : string) (database_data : json)
    (include_sample_data include_table_profiles include_lineage : bool)
    : M (list SchemaModel.t) :=
  let! database_fqn := lift (py_get database_data "fullyQualifiedName" JNull) in
  let! schemas_response :=
    session_get (base_url +:+ "/databaseSchemas") (schemas_listing_params database_fqn) in
  if negb (status_code schemas_response =? 200)%Z
  then ret []
  else
    let! schemas_data := lift (response_json schemas_response) in
    let! schemas := lift (py_get schemas_data "data" (JArr [])) in
    let! items := lift (py_iter schemas) in
    mapM_M (process_schema base_url
              include_sample_data include_table_profiles include_lineage) items.

(** The local variables of the loop of [_process_databases]:
    [databases_list] and the three running totals. *)
Record walk_state : Type := mkWalk {
  databases_list : list DatabaseModel.t;
  total_schemas : nat;
  total_tables : nat;
  total_columns : nat
}.

(** The body of [for database in databases] (lines 286-342). *)
Definition process_database (base_url : string)
    (include_sample_data include_table_profiles include_lineage : bool)
    (st : walk_state) (database : json) : M walk_state :=
  let! db_owners :=
    lift (let? owners := py_get database "owners" (JArr []) in
          let? items := py_iter owners in
          mapM owner_model items) in
  let! schemas_list :=
    _process_database_schemas base_url database
      include_sample_data include_table_profiles include_lineage in
  let db_table_count := sum_table_counts schemas_list in
  let db_column_count := sum_column_counts schemas_list in
  let! db_model := lift (database_model database db_owners schemas_list db_table_count) in
  ret {| databases_list := (databases_list st ++ [db_model])%list;
         total_schemas := total_schemas st + length schemas_list;
         total_tables := total_tables st + db_table_count;
         total_columns := total_columns st + db_column_count |}.

(** [_process_databases] (lines 260-351). *)
Definition _process_databases (base_url service_name : string)
    (include_sample_data include_table_profiles include_lineage : bool)
    : M (list DatabaseModel.t * SummaryStats.t) :=
  let! databases_response :=
    session_get (base_url +:+ "/databases") (databases_listing_params service_name) in
  let! _ := lift (raise_for_status databases_response) in
  let! databases_data := lift (response_json databases_response) in
  let! databases := lift (py_get databases_data "data" (JArr [])) in
  let! n := lift (py_len databases) in
  let! items := lift (py_iter databases) in
  let! st :=
    foldM (process_database base_url
             include_sample_data include_table_profiles include_lineage)
          items (mkWalk [] 0 0 0) in
  ret (databases_list st,
       {| SummaryStats.total_databases := n;
          SummaryStats.total_schemas := total_schemas st;
          SummaryStats.total_tables := total_tables st;
          SummaryStats.total_columns := total_columns st |}).

(** [datetime.utcnow().isoformat()]. *)
Definition utcnow : M string := fun w => (Ok (utcnow_isoformat w), w).

(** [extract_database_metadata] (lines 594-679), the handler of
    [GET /service/{service_name}/metadata].  A raised [HTTPException]
    is the error response the caller receives. *)
Definition extract_database_metadata (service_name : string)
    (include_sample_data include_table_profiles include_lineage : bool)
    : M DatabaseMetadataResponse.t :=
  try_except
    (let base_url := api_base in
     let! service_data := _fetch_service_metadata base_url service_name in
     let! _ := lift (let? _ := py_get service_data "id" JNull in
                     py_get service_data "serviceType" JNull) in
     let! service_model := lift (_create_service_model service_data) in
     let! walked :=
       _process_databases base_url service_name
         include_sample_data include_table_profiles include_lineage in
     let! now := utcnow in
     let summary := _create_metadata_summary service_model (fst walked) (snd walked) now in
     ret {| DatabaseMetadataResponse.service := service_model;
            DatabaseMetadataResponse.databases := fst walked;
            DatabaseMetadataResponse.summary := summary |})
    (fun e =>
       match e with
       | HTTPException _ _ => None
       | HTTPError _ _ =>
           Some (raise (HTTPException 500 ("Failed to extract metadata: " +:+ exn_str e)))
       | _ =>
           Some (raise (HTTPException 500 ("Failed to extract metadata: " +:+ exn_str e)))
       end).

End Walker.

(* ================================================================== *)
(** ** Table listing endpoint *)
(* ================================================================== *)

(** Truthiness of an [Optional[str]] query parameter. *)
Definition opt_truthy (o : option string) : bool :=
  match o with
  | Some s => str_truthy s
  | None => false
  end.

(** An [Optional[str]] inside an f-string. *)
Definition opt_format (o : option string) : string :=
  match o with
  | Some s => s
  | None => "None"
  end.

(** The filter parameters of [get_service_tables] (lines 709-717). *)
Definition tables_filter_params (service_name : string)
    (database_name schema_name : option string) : list (string * json) :=
  if opt_truthy database_name && opt_truthy schema_name then
    [("databaseSchema",
      JStr (service_name +:+ "." +:+ opt_format database_name +:+ "." +:+ opt_format schema_name))]
  else if opt_truthy database_name then
    [("database", JStr (service_name +:+ "." +:+ opt_format database_name))]
  else
    [("service", JStr service_name)].

(** What [get_service_tables] does with the upstream response (lines
    720-798). *)
Definition tables_response_of (service_name : string)
    (database_name schema_name : option string) (include_columns : bool)
    (tables_response : Response) : result TablesResponse.t :=
  let? _ := raise_for_status tables_response in
  let? tables_data := response_json tables_response in
  let? tables := py_get tables_data "data" (JArr []) in
  let filter_info :=
    {| TableFilterInfo.database_name := database_name;
       TableFilterInfo.schema_name := schema_name;
       TableFilterInfo.include_columns := include_columns |} in
  let? tables_list :=
    (if py_truthy tables
     then (let? items := py_iter tables in
           mapM (listing_table_model include_columns) items)
     else Ok []) in
  Ok {| TablesResponse.service_name := service_name;
        TablesResponse.filter := filter_info;
        TablesResponse.tables := tables_list;
        TablesResponse.count := length tables_list |}.

Section Listing.
Context `{Env}.

(** [get_service_tables] (lines 683-810), the handler of
    [GET /service/{service_name}/tables]. *)
Definition get_service_tables (service_name : string)
    (database_name schema_name : option string) (include_columns : bool)
    : M TablesResponse.t :=
  try_except
    (let base_url := api_base in
     let params := tables_filter_params service_name database_name schema_name in
     let! tables_response := session_get (base_url +:+ "/tables") params in
     lift (tables_response_of service_name database_name schema_name
             include_columns tables_response))
    (fun e =>
       match e with
       | HTTPError _ _ =>
           Some (raise (HTTPException 500 ("Failed to list tables: " +:+ exn_str e)))
       | _ =>
           Some (raise (HTTPException 500 ("Failed to list tables: " +:+ exn_str e)))
       end).

End Listing.

(* ================================================================== *)
(** ** Service creation endpoint *)
(* ================================================================== *)

(** Modelled from the spec: the request body of [POST /service]
    ([DatabaseServicePayload] of [app.schemas], not part of the
    sources): name, serviceType, and the optional description,
    displayName, connection config, tags and owners.  An owner's type is
    kept as the string that [owner.type.value] or [owner.type] gives. *)
Module PayloadOwner.
Record t : Type := mk {
  name : string;
  type_ : string
}.
End PayloadOwner.

Module DatabaseServicePayload.
Record t : Type := mk {
  name : string;
  serviceType : string;
  connection : json;
  description : option string;
  displayName : option string;
  tags : option (list string);
  owners : option (list PayloadOwner.t)
}.
End DatabaseServicePayload.

Definition valid_service_types : list string :=
  ["MySQL"; "PostgreSQL"; "BigQuery"; "Snowflake"; "Redshift";
   "Oracle"; "MSSQL"; "MongoDB"; "Cassandra"; "Clickhouse";
   "Databricks"; "Athena"; "Hive"; "Presto"; "Trino"].

(** [x in valid_service_types]. *)
Definition str_in (x : string) (l : list string) : bool :=
  existsb (String.eqb x) l.

(** The [service_request] dict (lines 509-536), keys in insertion
    order. *)
Definition service_request_of (payload : DatabaseServicePayload.t) : json :=
  JObj
    ([("name", JStr (DatabaseServicePayload.name payload));
      ("serviceType", JStr (DatabaseServicePayload.serviceType payload));
      ("connection", JObj [("config", DatabaseServicePayload.connection payload)])]
     ++ (if opt_truthy (DatabaseServicePayload.description payload)
         then [("description", JStr (opt_format (DatabaseServicePayload.description payload)))]
         else [])
     ++ (if opt_truthy (DatabaseServicePayload.displayName payload)
         then [("displayName", JStr (opt_format (DatabaseServicePayload.displayName payload)))]
         else [])
     ++ (match DatabaseServicePayload.tags payload with
         | Some (t :: ts) =>
             [("tags", JArr (map (fun tag => JObj [("tagFQN", JStr tag)]) (t :: ts)))]
         | _ => []
         end)
     ++ (match DatabaseServicePayload.owners payload with
         | Some (o :: os) =>
             [("owners",
               JArr (map (fun owner =>
                            JObj [("name", JStr (PayloadOwner.name owner));
                                  ("type", JStr (PayloadOwner.type_ owner))])
                         (o :: os)))]
         | _ => []
         end))%list.

Section Creation.
Context `{Env}.

(** The [error_detail] of lines 571-579. *)
Definition creation_error_detail (resp : option Response) (msg : string) : string :=
  match resp with
  | Some r =>
      if response_ok r then
        match response_json r with
        | Ok (JObj d) =>
            match dict_lookup d "message" with
            | Some v => py_str v
            | None =>
                match dict_lookup d "detail" with
                | Some v => py_str v
                | None => py_str (JObj d)
                end
            end
        | _ => text r
        end
      else msg
  | None => msg
  end.

(** The existence check of lines 494-506: [Some message] when the
    handler returns from inside it, [None] when control goes on to the
    creation. *)
Definition check_existing (base_url : string) (payload : DatabaseServicePayload.t)
    : M (option MessageResponse.t) :=
  try_except
    (let! existing_response :=
       session_get (base_url +:+ "/services/databaseServices/name/"
                      +:+ DatabaseServicePayload.name payload) [] in
     if (status_code existing_response =? 200)%Z then
       let! existing_service := lift (response_json existing_response) in
       let! existing_id := lift (py_get existing_service "id" JNull) in
       ret (Some {| MessageResponse.message :=
                      "Database service '" +:+ DatabaseServicePayload.name payload
                      +:+ "' already exists in OpenMetadata with ID: "
                      +:+ py_str existing_id |})
     else ret None)
    (fun e => if is_HTTPError e then Some (ret None) else None).

(** The creation call and its handler (lines 544-584). *)
Definition create_upstream (base_url : string) (payload : DatabaseServicePayload.t)
    : M MessageResponse.t :=
  try_except
    (let! response :=
       session_post (base_url +:+ "/services/databaseServices")
                    (service_request_of payload) in
     let! _ := lift (raise_for_status response) in
     let! created_service := lift (response_json response) in
     let! created_id := lift (py_get created_service "id" JNull) in
     let! created_name := lift (py_get created_service "name" JNull) in
     ret {| MessageResponse.message :=
              "Database service '" +:+ py_str created_name
              +:+ "' created successfully in OpenMetadata with ID: "
              +:+ py_str created_id |})
    (fun e =>
       match e with
       | HTTPError resp msg =>
           Some
             (if error_response_truthy resp &&
                 match resp with
                 | Some r => (status_code r =? 409)%Z
                 | None => false
                 end
              then ret {| MessageResponse.message :=
                            "Database service '" +:+ DatabaseServicePayload.name payload
                            +:+ "' already exists in OpenMetadata" |}
              else raise (HTTPException 500
                            ("OpenMetadata service creation failed: "
                             +:+ creation_error_detail resp msg)))
       | _ => None
       end).

(** [create_database_service] (lines 462-590), the handler of
    [POST /service]. *)
Definition create_database_service (payload : DatabaseServicePayload.t)
    : M MessageResponse.t :=
  try_except
    (if negb (str_in (DatabaseServicePayload.serviceType payload) valid_service_types)
     then raise (HTTPException 400
                   ("Invalid serviceType. Must be one of: "
                    +:+ join ", " valid_service_types))
     else
       let base_url := api_base in
       let! existing := check_existing base_url payload in
       match existing with
       | Some already => ret already
       | None => create_upstream base_url payload
       end)
    (fun e =>
       match e with
       | HTTPException _ _ => None
       | _ => Some (raise (HTTPException 500 "Internal server error"))
       end).

End Creation.

(* ================================================================== *)
(** ** Health check endpoint *)
(* ================================================================== *)

(** The [server_info] dict of a healthy answer (lines 832-845): the
    version of the decoded body, or the text of what went wrong while
    reading it. *)
Definition healthy_server_info (response : Response) : json :=
  match (let? version_data := response_json response in
         let? version := py_get version_data "version" (JStr "unknown") in
         Ok (JObj [("version", version);
                   ("connection_type", JStr "Direct API");
                   ("server_data", version_data)])) with
  | Ok server_info => server_info
  | Raise version_error =>
      JObj [("version", JStr "unknown");
            ("connection_type", JStr "Direct API");
            ("version_error", JStr (exn_str version_error))]
  end.

(** The [server_info] dict of an unhealthy answer (lines 847-852). *)
Definition unhealthy_server_info (response : Response) : json :=
  JObj [("version", JStr "unknown");
        ("connection_type", JStr "Direct API");
        ("status_code", JInt (status_code response));
        ("response_text", JStr (text response))].

(** The dict returned when the probe itself fails (lines 863-873). *)
Definition health_failure (e : exn) : json :=
  JObj [("openmetadata_healthy", JBool false);
        ("api_loaded", JBool true);
        ("error", JStr (exn_str e));
        ("message", JStr "OpenMetadata API connection failed");
        ("troubleshooting",
         JObj [("check_server", JStr "Ensure OpenMetadata server is running");
               ("check_url", JStr "Verify OPENMETADATA_URL environment variable");
               ("check_token", JStr "Verify OPENMETADATA_ACCESS_TOKEN is valid")])].

Section Health.
Context `{Env}.

(** [check_openmetadata_health] (lines 814-873), the handler of
    [GET /health]. *)
Definition check_openmetadata_health : M json :=
  try_except
    (let base_url := api_base in
     let! response := session_get (base_url +:+ "/system/version") [] in
     let is_healthy := (status_code response =? 200)%Z in
     let server_info :=
       if is_healthy then healthy_server_info response
       else unhealthy_server_info response in
     ret (JObj [("openmetadata_healthy", JBool is_healthy);
                ("api_loaded", JBool true);
                ("server_info", server_info);
                ("message",
                 JStr (if is_healthy then "OpenMetadata API connection successful"
                       else "OpenMetadata connection failed"))]))
    (fun e => Some (ret (health_failure e))).

End Health.

(* ================================================================== *)
(** ** A scripted upstream, for running the endpoints *)
(* ================================================================== *)

(** The upstream answers the calls it receives with the entries of a
    script, in order, and records each call; once the script is
    exhausted the connection fails.  [str()] is given on the scalars. *)
Definition script_world : Type := list (result Response) * list Request.

Definition script_send (req : Request) (w : script_world)
    : result Response * script_world :=
  match fst w with
  | r :: rest => (r, (rest, (snd w ++ [req])%list))
  | [] => (Raise (RequestException "Connection refused"), ([], (snd w ++ [req])%list))
  end.

Definition str_of_scalar (j : json) : string :=
  match j with
  | JStr s => s
  | JNull => "None"
  | JBool true => "True"
  | JBool false => "False"
  | JInt n => string_of_Z n
  | _ => "<object>"
  end.

Definition scripted : Env :=
  {| World := script_world;
     send := script_send;
     utcnow_isoformat := fun _ => "2024-01-01T00:00:00";
     openmetadata_url := "http://om:8585/";
     py_str := str_of_scalar |}.

(** A response with a JSON body. *)
Definition json_response (status : Z) (why : string) (j : json) : result Response :=
  Ok (mkResponse status why "http://om:8585/api/v1" (Some j) "").

(** Running a computation against a script: the outcome and the calls
    that were made. *)
Definition run {A} (m : @M scripted A) (script : list (result Response))
    : result A * list Request :=
  let out := m (script, []) in (fst out, snd (snd out)).

(* ================================================================== *)
(** ** The vocabulary of the specification *)
(* ================================================================== *)

(** *** Descriptor precedence (spec 4.1)

    The type descriptor of a column record is the value bound to
    ["dataType"].  [descriptor_resolved d c] says that the column [c]
    honours the precedence the specification gives for the record [d]:
    a structured descriptor supplies [dataType] (its ["name"]) and
    [precision], [scale] and [maxLength] (its ["precision"], ["scale"]
    and ["length"]); a flat string is the [dataType] itself and leaves
    the three others null; [constraint] is the ["name"] of a structured
    constraint and the flat string otherwise. *)
Definition descriptor_resolved (d : list (string * json)) (c : ColumnModel.t) : Prop :=
  (forall t, dict_lookup d "dataType" = Some (JObj t) ->
     ColumnModel.dataType c = dict_get t "name" JNull /\
     ColumnModel.precision c = dict_get t "precision" JNull /\
     ColumnModel.scale c = dict_get t "scale" JNull /\
     ColumnModel.maxLength c = dict_get t "length" JNull) /\
  (forall s, dict_lookup d "dataType" = Some (JStr s) ->
     ColumnModel.dataType c = JStr s /\
     ColumnModel.precision c = JNull /\
     ColumnModel.scale c = JNull /\
     ColumnModel.maxLength c = JNull) /\
  (forall k, dict_lookup d "constraint" = Some (JObj k) ->
     ColumnModel.constraint c = dict_get k "name" JNull) /\
  (forall s, dict_lookup d "constraint" = Some (JStr s) ->
     ColumnModel.constraint c = JStr s).

(** *** Owner names and tag identifiers of a tree (spec 4.4)

    The owner names found on the service, the databases, the schemas
    and the tables, and the tag identifiers found on those and on the
    columns of the tables, as flat lists. *)
Definition owner_names (owners : list OwnerModel.t) : list string :=
  map OwnerModel.name owners.

Definition tag_fqns (tags : list TagModel.t) : list string :=
  map TagModel.tagFQN tags.

Definition table_owner_names (t : TableModel.t) : list string :=
  owner_names (TableModel.owners t).

Definition schema_owner_names (s : SchemaModel.t) : list string :=
  (owner_names (SchemaModel.owners s)
   ++ flat_map table_owner_names (SchemaModel.tables s))%list.

Definition database_owner_names (db : DatabaseModel.t) : list string :=
  (owner_names (DatabaseModel.owners db)
   ++ flat_map schema_owner_names (DatabaseModel.schemas db))%list.

Definition spec_owner_names (svc : ServiceModel.t) (dbs : list DatabaseModel.t)
    : list string :=
  (owner_names (ServiceModel.owners svc) ++ flat_map database_owner_names dbs)%list.

Definition table_tag_fqns (t : TableModel.t) : list string :=
  (tag_fqns (TableModel.tags t)
   ++ flat_map (fun c => tag_fqns (ColumnModel.tags c)) (TableModel.columns t))%list.

Definition schema_tag_fqns (s : SchemaModel.t) : list string :=
  (tag_fqns (SchemaModel.tags s) ++ flat_map table_tag_fqns (SchemaModel.tables s))%list.

Definition database_tag_fqns (db : DatabaseModel.t) : list string :=
  (tag_fqns (DatabaseModel.tags db)
   ++ flat_map schema_tag_fqns (DatabaseModel.schemas db))%list.

Definition spec_tag_fqns (svc : ServiceModel.t) (dbs : list DatabaseModel.t)
    : list string :=
  (tag_fqns (ServiceModel.tags svc) ++ flat_map database_tag_fqns dbs)%list.

(** The number of distinct non-empty strings of a list. *)
Definition distinct_nonempty (l : list string) : nat :=
  length (remove_dups (List.filter str_truthy l)).

(** The set of the non-empty strings of a list. *)
Definition names_set (l : list string) : gset string :=
  list_to_set (List.filter str_truthy l).

(** A tree with a struct column: the table [customers] has one column
    [address], tagged [Tier.Gold], whose child column [zip] is tagged
    [PII.Sensitive].  The tree is built by the normalisers from the
    records an upstream would send. *)
Definition nested_tree : result (ServiceModel.t * list DatabaseModel.t) :=
  let? svc := _create_service_model (JObj [("id", JStr "s1"); ("name", JStr "crm")]) in
  let? table :=
    _create_table_model
      (JObj [("id", JStr "t1"); ("name", JStr "customers");
             ("columns",
              JArr [JObj [("name", JStr "address");
                          ("dataType", JObj [("name", JStr "STRUCT")]);
                          ("tags", JArr [JObj [("tagFQN", JStr "Tier.Gold")]]);
                          ("children",
                           JArr [JObj [("name", JStr "zip");
                                       ("dataType", JObj [("name", JStr "STRING")]);
                                       ("tags",
                                        JArr [JObj [("tagFQN", JStr "PII.Sensitive")]])]])]])])
      false false false in
  let? schema := schema_model (JObj [("name", JStr "public")]) [table] 1 in
  let? db := database_model (JObj [("name", JStr "sales")]) [] [schema] 1 in
  Ok (svc, [db]).

(** The tag identifiers found on the children of a column, at any
    depth. *)
Fixpoint nested_tag_fqns (c : ColumnModel.t) : list string :=
  flat_map (fun child =>
              (tag_fqns (ColumnModel.tags child) ++ nested_tag_fqns child)%list)
           (ColumnModel.children c).

(** *** Replacing what hangs below the columns of a tree

    [graft g] puts [g c] in place of the children of every column [c] of
    every table, and leaves everything else as it is. *)
Definition column_with_children (cs : list ColumnModel.t) (c : ColumnModel.t)
    : ColumnModel.t :=
  match c with
  | ColumnModel.mk name dataType dataTypeDisplay description ordinalPosition
      constraint tags nullable defaultValue precision scale maxLength
      arrayDataType dataLength jsonSchema fullyQualifiedName _ customMetrics =>
      ColumnModel.mk name dataType dataTypeDisplay description ordinalPosition
        constraint tags nullable defaultValue precision scale maxLength
        arrayDataType dataLength jsonSchema fullyQualifiedName cs customMetrics
  end.

Definition table_with_columns (cols : list ColumnModel.t) (t : TableModel.t)
    : TableModel.t :=
  match t with
  | TableModel.mk a1 a2 a3 a4 a5 a6 a7 a8 _ a10 a11 a12 a13 a14 a15 a16 a17 a18
      a19 a20 a21 a22 a23 a24 a25 a26 a27 a28 a29 a30 a31 a32 a33 a34 a35 a36 =>
      TableModel.mk a1 a2 a3 a4 a5 a6 a7 a8 cols a10 a11 a12 a13 a14 a15 a16 a17 a18
        a19 a20 a21 a22 a23 a24 a25 a26 a27 a28 a29 a30 a31 a32 a33 a34 a35 a36
  end.

Definition schema_with_tables (ts : list TableModel.t) (s : SchemaModel.t)
    : SchemaModel.t :=
  match s with
  | SchemaModel.mk a1 a2 a3 a4 _ a6 a7 a8 a9 =>
      SchemaModel.mk a1 a2 a3 a4 ts a6 a7 a8 a9
  end.

Definition database_with_schemas (ss : list SchemaModel.t) (db : DatabaseModel.t)
    : DatabaseModel.t :=
  match db with
  | DatabaseModel.mk a1 a2 a3 a4 a5 _ a7 a8 a9 a10 a11 a12 a13 a14 a15 a16 a17 a18
      a19 a20 a21 a22 =>
      DatabaseModel.mk a1 a2 a3 a4 a5 ss a7 a8 a9 a10 a11 a12 a13 a14 a15 a16 a17 a18
        a19 a20 a21 a22
  end.

Definition graft_table (g : ColumnModel.t -> list ColumnModel.t) (t : TableModel.t)
    : TableModel.t :=
  table_with_columns (map (fun c => column_with_children (g c) c) (TableModel.columns t)) t.

Definition graft_schema (g : ColumnModel.t -> list ColumnModel.t) (s : SchemaModel.t)
    : SchemaModel.t :=
  schema_with_tables (map (graft_table g) (SchemaModel.tables s)) s.

Definition graft (g : ColumnModel.t -> list ColumnModel.t) (db : DatabaseModel.t)
    : DatabaseModel.t :=
  database_with_schemas (map (graft_schema g) (DatabaseModel.schemas db)) db.

(** *** Counts against materialized lists (spec 3)

    Each derived count of a record equals the length of the list it
    counts. *)
Definition table_counts_ok (t : TableModel.t) : Prop :=
  TableModel.column_count t = length (TableModel.columns t).

Definition schema_counts_ok (s : SchemaModel.t) : Prop :=
  SchemaModel.table_count s = length (SchemaModel.tables s) /\
  Forall table_counts_ok (SchemaModel.tables s).

Definition database_counts_ok (db : DatabaseModel.t) : Prop :=
  DatabaseModel.schema_count db = length (DatabaseModel.schemas db) /\
  DatabaseModel.table_count db
    = length (concat (map SchemaModel.tables (DatabaseModel.schemas db))) /\
  Forall schema_counts_ok (DatabaseModel.schemas db).

Definition schemas_of (dbs : list DatabaseModel.t) : list SchemaModel.t :=
  concat (map DatabaseModel.schemas dbs).

Definition columns_of (dbs : list DatabaseModel.t) : list ColumnModel.t :=
  concat (map TableModel.columns (tables_of dbs)).

Definition response_counts_ok (r : DatabaseMetadataResponse.t) : Prop :=
  let dbs := DatabaseMetadataResponse.databases r in
  let s := DatabaseMetadataResponse.summary r in
  Forall database_counts_ok dbs /\
  MetadataSummary.total_databases s = length dbs /\
  MetadataSummary.total_schemas s = length (schemas_of dbs) /\
  MetadataSummary.total_tables s = length (tables_of dbs) /\
  MetadataSummary.total_columns s = length (columns_of dbs).

(** The invariant of the loop of [_process_databases]: the databases
    built so far have matching counts and the running totals are the
    sizes of what they hold. *)
Definition walk_ok (st : walk_state) : Prop :=
  Forall database_counts_ok (databases_list st) /\
  total_schemas st = length (schemas_of (databases_list st)) /\
  total_tables st = length (tables_of (databases_list st)) /\
  total_columns st = length (columns_of (databases_list st)).

(** A listing of one table with two columns. *)
Definition two_column_listing : json :=
  JObj [("data",
         JArr [JObj [("id", JStr "t1"); ("name", JStr "orders");
                     ("columns",
                      JArr [JObj [("name", JStr "id"); ("dataType", JStr "INT")];
                            JObj [("name", JStr "total"); ("dataType", JStr "DECIMAL")]])]])].

(** The request body of the creation runs. *)
Definition crm_payload : DatabaseServicePayload.t :=
  {| DatabaseServicePayload.name := "crm";
     DatabaseServicePayload.serviceType := "MySQL";
     DatabaseServicePayload.connection := JObj [("hostPort", JStr "db:3306")];
     DatabaseServicePayload.description := None;
     DatabaseServicePayload.displayName := None;
     DatabaseServicePayload.tags := None;
     DatabaseServicePayload.owners := None |}.

(** Records of a small catalog: the service [crm] with the databases
    [sales] and [hr]; [hr] has the schemas [public] and [audit], and
    [public] the table [people]. *)
Definition crm_service : list (string * json) :=
  [("id", JStr "s1"); ("name", JStr "crm"); ("serviceType", JStr "MySQL");
   ("owners", JArr [JObj [("name", JStr "alice"); ("type", JStr "user")]])].

Definition sales_database : list (string * json) :=
  [("name", JStr "sales"); ("fullyQualifiedName", JStr "crm.sales")].

Definition hr_database : list (string * json) :=
  [("name", JStr "hr"); ("fullyQualifiedName", JStr "crm.hr")].

Definition public_schema : list (string * json) :=
  [("name", JStr "public"); ("fullyQualifiedName", JStr "crm.hr.public")].

Definition audit_schema : list (string * json) :=
  [("name", JStr "audit"); ("fullyQualifiedName", JStr "crm.hr.audit")].

Definition people_table : list (string * json) :=
  [("id", JStr "t1"); ("name", JStr "people"); ("tableType", JStr "Regular");
   ("columns",
    JArr [JObj [("name", JStr "id"); ("dataType", JStr "INT");
                ("dataTypeDisplay", JStr "int")]])].

(** The answers of an upstream during one extraction of [crm]: the
    schemas listing of [sales] fails (500), the detail fetch of
    [people] fails (404) and the tables listing of [audit] fails
    (503). *)
Definition walk_script : list (result Response) :=
  [json_response 200 "OK" (JObj crm_service);
   json_response 200 "OK" (JObj [("data", JArr [JObj sales_database; JObj hr_database])]);
   json_response 500 "Internal Server Error" JNull;
   json_response 200 "OK" (JObj [("data", JArr [JObj public_schema; JObj audit_schema])]);
   json_response 200 "OK" (JObj [("data", JArr [JObj people_table])]);
   json_response 404 "Not Found" JNull;
   json_response 503 "Service Unavailable" JNull].

(** The base URL of the scripted upstream. *)
Definition scripted_base : string := "http://om:8585/api/v1".

(** *** Records and the models built from them

    A tag model is the model of a tag record: the record is a dict, the
    [tagFQN] is what it binds to ["tagFQN"] (the empty string when it
    binds nothing), and the two other fields are passed on. *)
Definition tag_of_record (item : json) (t : TagModel.t) : Prop :=
  exists fields,
    item = JObj fields /\
    dict_get fields "tagFQN" (JStr "") = JStr (TagModel.tagFQN t) /\
    TagModel.description t = dict_get fields "description" JNull /\
    TagModel.source t = dict_get fields "source" JNull.

Definition owner_of_record (item : json) (o : OwnerModel.t) : Prop :=
  exists fields,
    item = JObj fields /\
    dict_get fields "name" (JStr "") = JStr (OwnerModel.name o) /\
    dict_get fields "type" (JStr "") = JStr (OwnerModel.type_ o) /\
    OwnerModel.id o = dict_get fields "id" JNull /\
    OwnerModel.fullyQualifiedName o = dict_get fields "fullyQualifiedName" JNull.

(** The identity of a record: what it binds to ["id"], ["name"] and
    ["fullyQualifiedName"], the empty string standing for a missing
    key. *)
Definition identified_by (item : json) (id name fqn : string) : Prop :=
  exists fields,
    item = JObj fields /\
    dict_get fields "id" (JStr "") = JStr id /\
    dict_get fields "name" (JStr "") = JStr name /\
    dict_get fields "fullyQualifiedName" (JStr "") = JStr fqn.

Definition table_of_record (item : json) (t : TableModel.t) : Prop :=
  identified_by item (TableModel.id t) (TableModel.name t)
    (TableModel.fullyQualifiedName t).

Definition schema_of_record (item : json) (s : SchemaModel.t) : Prop :=
  identified_by item (SchemaModel.id s) (SchemaModel.name s)
    (SchemaModel.fullyQualifiedName s).

Definition database_of_record (item : json) (db : DatabaseModel.t) : Prop :=
  identified_by item (DatabaseModel.id db) (DatabaseModel.name db)
    (DatabaseModel.fullyQualifiedName db).

(** The twelve entries every include list starts with (lines 19-22). *)
Definition base_include_params : list string :=
  ["all"; "joins"; "tags"; "owner"; "followers"; "extension"; "domain";
   "dataProducts"; "votes"; "lifeCycle"; "certification"; "sourceHash"].

(** How often a string occurs in a list. *)
Definition occurrences (x : string) (l : list string) : nat :=
  length (List.filter (String.eqb x) l).

(** The [column_count] of a table model is the number of columns of the
    upstream record it was built from: [len(table.get("columns", []))]. *)
Definition upstream_column_count (item : json) (t : TableModel.t) : Prop :=
  exists fields,
    item = JObj fields /\
    py_len (dict_get fields "columns" (JArr [])) = Ok (TableModel.column_count t).



(** The table [orders] as a tables listing gives it, its column
    carrying a flat type and no display string, and as the detail fetch
    gives it, with the display string. *)
Definition orders_listed : list (string * json) :=
  [("id", JStr "t2"); ("name", JStr "orders");
   ("columns", JArr [JObj [("name", JStr "id"); ("dataType", JStr "INT")]])].

Definition orders_detailed : list (string * json) :=
  [("id", JStr "t2"); ("name", JStr "orders");
   ("columns",
    JArr [JObj [("name", JStr "id"); ("dataType", JStr "INT");
                ("dataTypeDisplay", JStr "int")]])].

(** The answers of an upstream during one extraction of [crm], up to
    the detail fetch of [orders]: one database, one schema, one listed
    table. *)
Definition orders_script (detail : result Response) : list (result Response) :=
  [json_response 200 "OK" (JObj crm_service);
   json_response 200 "OK" (JObj [("data", JArr [JObj hr_database])]);
   json_response 200 "OK" (JObj [("data", JArr [JObj public_schema])]);
   json_response 200 "OK" (JObj [("data", JArr [JObj orders_listed])]);
   detail].

(** A table model is what the walker makes of a listed record, in some
    state of the upstream. *)
Definition processed_from `{Env} (base_url : string) (f1 f2 f3 : bool)
    (item : json) (t : TableModel.t) : Prop :=
  exists w0 w1, process_table base_url f1 f2 f3 item w0 = (Ok t, w1).

(** A catalog that answers the version probe. *)
Definition version_body : json :=
  JObj [("version", JStr "1.4.2"); ("revision", JStr "a1b2c3")].

(* ================================================================== *)
(** ** Properties of the normalisers *)
(* ================================================================== *)

Lemma rbind_ok {A B} (r : result A) (k : A -> result B) (b : B) :
  rbind r k = Ok b -> exists a, r = Ok a /\ k a = Ok b.
Proof.
  destruct r as [a|e]; simpl; intros Hk; [exists a; auto | discriminate].
Qed.

Lemma mapM_length {A B} (f : A -> result B) (l : list A) (l' : list B) :
  mapM f l = Ok l' -> length l' = length l.
Proof.
  revert l'. induction l as [|x xs IH]; simpl; intros l' Hl.
  - injection Hl as <-. reflexivity.
  - apply rbind_ok in Hl as (y & _ & Hl).
    apply rbind_ok in Hl as (ys & Hys & Hl).
    injection Hl as <-. simpl. f_equal. apply IH, Hys.
Qed.

Lemma mapM_ext {A B} (f g : A -> result B) (l : list A) :
  (forall x, In x l -> f x = g x) -> mapM f l = mapM g l.
Proof.
  induction l as [|x xs IH]; simpl; intros Hfg; [reflexivity|].
  rewrite (Hfg x) by auto. rewrite IH by auto. reflexivity.
Qed.

Lemma mapM_Forall2 {A B} (f : A -> result B) (l : list A) (l' : list B) :
  mapM f l = Ok l' -> Forall2 (fun x y => f x = Ok y) l l'.
Proof.
  revert l'. induction l as [|x xs IH]; simpl; intros l' Hl.
  - injection Hl as <-. constructor.
  - apply rbind_ok in Hl as (y & Hy & Hl).
    apply rbind_ok in Hl as (ys & Hys & Hl).
    injection Hl as <-. constructor; auto.
Qed.

Lemma Forall2_weaken {A B} (P Q : A -> B -> Prop) (l : list A) (l' : list B) :
  (forall x y, P x y -> Q x y) -> Forall2 P l l' -> Forall2 Q l l'.
Proof. intros HPQ Hl. induction Hl; constructor; auto. Qed.

Lemma py_iter_len (j : json) (items : list json) :
  py_iter j = Ok items -> py_len j = Ok (length items).
Proof.
  destruct j; simpl; intros Hj; try discriminate; injection Hj as <-.
  - unfold chars_of. rewrite length_map.
    f_equal. induction s as [|c s IH]; simpl; [reflexivity | now f_equal].
  - reflexivity.
  - unfold keys_of. now rewrite length_map.
Qed.

(** The recursion of [_create_column_model], in the words of the
    source: the children are
    [[_create_column_model(child) for child in column_data.get("children", [])]]. *)
Lemma create_column_model_eq (d : list (string * json)) :
  _create_column_model (JObj d) =
  column_fields d
    (let? items := py_iter (dict_get d "children" (JArr [])) in
     mapM _create_column_model items).
Proof.
  cbn [_create_column_model]. f_equal.
  unfold dict_get.
  induction d as [|[k v] d IH]; [reflexivity|].
  cbn [dict_lookup]. destruct (String.eqb k "children"); [|exact IH].
  destruct v; try reflexivity.
  - cbn [py_iter rbind]. apply mapM_ext. intros x Hx.
    unfold chars_of in Hx. apply in_map_iff in Hx as (c & <- & _). reflexivity.
  - cbn [py_iter rbind]. induction items as [|child l IHl]; [reflexivity|].
    cbn [mapM]. now rewrite IHl.
  - cbn [py_iter rbind]. apply mapM_ext. intros x Hx.
    unfold keys_of in Hx. apply in_map_iff in Hx as (c & <- & _). reflexivity.
Qed.

(** Peels the successful binds of a hypothesis [H : (let? x := e in k) = Ok v]. *)
Ltac peel H :=
  repeat
    (let a := fresh "v" in
     let Ha := fresh "Hv" in
     apply rbind_ok in H as (a & Ha & H)).

(** A column whose type descriptor is a flat string and whose
    ["dataTypeDisplay"] is absent or falsy is not normalised: the
    fallback [data_type_info.get("displayName")] of line 41 is applied
    to the string. *)
Lemma create_column_model_flat_type (d : list (string * json)) (s : string) :
  dict_lookup d "dataType" = Some (JStr s) ->
  py_truthy (dict_get d "dataTypeDisplay" JNull) = false ->
  _create_column_model (JObj d) = Raise (no_attribute_get (JStr s)).
Proof.
  intros Hty Hdisp. rewrite create_column_model_eq.
  unfold column_fields, dict_get. rewrite Hty. cbn [is_dict rbind].
  unfold dict_get in Hdisp. rewrite Hdisp. reflexivity.
Qed.

(** X21.  Every column record that [_create_column_model] produces
    honours the descriptor precedence: a structured descriptor gives
    [dataType] its name and gives precision, scale and maxLength; a
    flat string is the [dataType] and leaves the three null; the
    constraint is the name of a structured constraint, else the flat
    value.  The column expression of the table-listing endpoint passes
    the upstream ["dataType"] and ["constraint"] on as they come and
    sets no precision, scale or maxLength. *)
Theorem column_descriptor_precedence (d : list (string * json)) (c : ColumnModel.t) :
  (_create_column_model (JObj d) = Ok c -> descriptor_resolved d c) /\
  (listing_column_model (JObj d) = Ok c ->
     ColumnModel.dataType c = dict_get d "dataType" JNull /\
     ColumnModel.constraint c = dict_get d "constraint" JNull /\
     ColumnModel.precision c = JNull /\
     ColumnModel.scale c = JNull /\
     ColumnModel.maxLength c = JNull).
Proof.
  split.
  - rewrite create_column_model_eq. unfold column_fields. intros Hc.
    peel Hc. injection Hc as <-. cbn.
    unfold descriptor_resolved, dict_get in *.
    split; [|split; [|split]]; intros x Hx; rewrite Hx in *; cbn in *;
      unfold dict_get in *; repeat split; congruence.
  - cbn [listing_column_model]. intros Hc. peel Hc. injection Hc as <-.
    cbn. repeat split.
Qed.

(** An instance of [column_descriptor_precedence]: a column with a
    structured descriptor and a structured constraint. *)
Lemma column_descriptor_precedence_witness :
  exists c,
    _create_column_model
      (JObj [("name", JStr "amount");
             ("dataType", JObj [("name", JStr "DECIMAL"); ("precision", JInt 10);
                                ("scale", JInt 2)]);
             ("constraint", JObj [("name", JStr "NOT_NULL")])]) = Ok c /\
    descriptor_resolved
      [("name", JStr "amount");
       ("dataType", JObj [("name", JStr "DECIMAL"); ("precision", JInt 10);
                          ("scale", JInt 2)]);
       ("constraint", JObj [("name", JStr "NOT_NULL")])] c.
Proof.
  eexists. split; [reflexivity|].
  apply column_descriptor_precedence. reflexivity.
Defined.


(** C4 (the code falls short of it).  Column normalisation raises on a
    column record whose ["dataType"] is a flat string and that has no
    ["dataTypeDisplay"], and so does the table normalisation of a table
    with such a column. *)
Theorem normalisers_raise_on_flat_type :
  _create_column_model (JObj [("name", JStr "id"); ("dataType", JStr "INT")])
  = Raise (AttributeError "'str' object has no attribute 'get'") /\
  _create_table_model
    (JObj [("id", JStr "t1"); ("name", JStr "orders");
           ("columns", JArr [JObj [("name", JStr "id"); ("dataType", JStr "INT")]])])
    false false false
  = Raise (AttributeError "'str' object has no attribute 'get'").
Proof. split; reflexivity. Qed.

(* ================================================================== *)
(** ** Properties of the summary *)
(* ================================================================== *)

Lemma names_set_app (l1 l2 : list string) :
  names_set (l1 ++ l2) = names_set l1 ∪ names_set l2.
Proof. unfold names_set. rewrite List.filter_app. apply list_to_set_app_L. Qed.

Lemma filter_map_comm {A} (f : A -> string) (l : list A) :
  map f (List.filter (fun x => str_truthy (f x)) l) = List.filter str_truthy (map f l).
Proof.
  induction l as [|x l IH]; simpl; [reflexivity|].
  destruct (str_truthy (f x)); simpl; now rewrite IH.
Qed.

Lemma update_owners_spec (s : gset string) (owners : list OwnerModel.t) :
  update_owners s owners = s ∪ names_set (owner_names owners).
Proof. unfold update_owners, names_set, owner_names. now rewrite filter_map_comm. Qed.

Lemma update_tags_spec (s : gset string) (tags : list TagModel.t) :
  update_tags s tags = s ∪ names_set (tag_fqns tags).
Proof. unfold update_tags, names_set, tag_fqns. now rewrite filter_map_comm. Qed.

Lemma names_set_nil : names_set [] = ∅.
Proof. reflexivity. Qed.

Lemma collect_columns_spec (cols : list ColumnModel.t) (s : gset string) :
  fold_left (fun tags column => update_tags tags (ColumnModel.tags column)) cols s
  = s ∪ names_set (flat_map (fun c => tag_fqns (ColumnModel.tags c)) cols).
Proof.
  revert s. induction cols as [|c cols IH]; intros s; simpl.
  - rewrite names_set_nil. set_solver.
  - rewrite IH, update_tags_spec, names_set_app. set_solver.
Qed.

Lemma collect_table_spec (acc : gset string * gset string) (t : TableModel.t) :
  collect_table acc t
  = (fst acc ∪ names_set (table_owner_names t), snd acc ∪ names_set (table_tag_fqns t)).
Proof.
  unfold collect_table, table_owner_names, table_tag_fqns.
  rewrite collect_columns_spec, update_owners_spec, update_tags_spec, names_set_app.
  f_equal. set_solver.
Qed.

Lemma collect_tables_spec (ts : list TableModel.t) (acc : gset string * gset string) :
  fold_left collect_table ts acc
  = (fst acc ∪ names_set (flat_map table_owner_names ts),
     snd acc ∪ names_set (flat_map table_tag_fqns ts)).
Proof.
  revert acc. induction ts as [|t ts IH]; intros [o g]; simpl.
  - rewrite names_set_nil. f_equal; set_solver.
  - rewrite IH, collect_table_spec, !names_set_app. simpl. f_equal; set_solver.
Qed.

Lemma collect_schema_spec (acc : gset string * gset string) (s : SchemaModel.t) :
  collect_schema acc s
  = (fst acc ∪ names_set (schema_owner_names s), snd acc ∪ names_set (schema_tag_fqns s)).
Proof.
  unfold collect_schema, schema_owner_names, schema_tag_fqns.
  rewrite collect_tables_spec, update_owners_spec, update_tags_spec, !names_set_app.
  simpl. f_equal; set_solver.
Qed.

Lemma collect_schemas_spec (ss : list SchemaModel.t) (acc : gset string * gset string) :
  fold_left collect_schema ss acc
  = (fst acc ∪ names_set (flat_map schema_owner_names ss),
     snd acc ∪ names_set (flat_map schema_tag_fqns ss)).
Proof.
  revert acc. induction ss as [|s ss IH]; intros [o g]; simpl.
  - rewrite names_set_nil. f_equal; set_solver.
  - rewrite IH, collect_schema_spec, !names_set_app. simpl. f_equal; set_solver.
Qed.

Lemma collect_database_spec (acc : gset string * gset string) (db : DatabaseModel.t) :
  collect_database acc db
  = (fst acc ∪ names_set (database_owner_names db),
     snd acc ∪ names_set (database_tag_fqns db)).
Proof.
  unfold collect_database, database_owner_names, database_tag_fqns.
  rewrite collect_schemas_spec, update_owners_spec, update_tags_spec, !names_set_app.
  simpl. f_equal; set_solver.
Qed.

Lemma collect_databases_spec (dbs : list DatabaseModel.t) (acc : gset string * gset string) :
  fold_left collect_database dbs acc
  = (fst acc ∪ names_set (flat_map database_owner_names dbs),
     snd acc ∪ names_set (flat_map database_tag_fqns dbs)).
Proof.
  revert acc. induction dbs as [|db dbs IH]; intros [o g]; simpl.
  - rewrite names_set_nil. f_equal; set_solver.
  - rewrite IH, collect_database_spec, !names_set_app. simpl. f_equal; set_solver.
Qed.

Lemma size_names_set (l : list string) : size (names_set l) = distinct_nonempty l.
Proof.
  unfold names_set, distinct_nonempty.
  rewrite <- (size_list_to_set (C := gset string) (remove_dups (List.filter str_truthy l)))
    by apply NoDup_remove_dups.
  f_equal. apply set_eq. intros x.
  rewrite !elem_of_list_to_set, elem_of_remove_dups. reflexivity.
Qed.

(** The two sets the summary builds are the non-empty owner names and
    the non-empty tag identifiers of the tree. *)
Lemma summary_sets (svc : ServiceModel.t) (dbs : list DatabaseModel.t)
    (stats : SummaryStats.t) (now : string) :
  MetadataSummary.total_owners (_create_metadata_summary svc dbs stats now)
  = size (names_set (spec_owner_names svc dbs)) /\
  MetadataSummary.total_tags (_create_metadata_summary svc dbs stats now)
  = size (names_set (spec_tag_fqns svc dbs)).
Proof.
  unfold _create_metadata_summary, spec_owner_names, spec_tag_fqns. cbn.
  rewrite collect_databases_spec, update_owners_spec, update_tags_spec, !names_set_app.
  cbn. split; f_equal; set_solver.
Qed.

(** C6.  [total_owners] is the number of distinct non-empty owner names
    over the service, the databases, the schemas and the tables, and
    [total_tags] the number of distinct non-empty tag identifiers over
    those and the columns of the tables; an empty name or identifier is
    not in either set, and putting one more in front of the names
    changes neither number. *)
Theorem summary_cardinalities (svc : ServiceModel.t) (dbs : list DatabaseModel.t)
    (stats : SummaryStats.t) (now : string) :
  let s := _create_metadata_summary svc dbs stats now in
  MetadataSummary.total_owners s = distinct_nonempty (spec_owner_names svc dbs) /\
  MetadataSummary.total_tags s = distinct_nonempty (spec_tag_fqns svc dbs) /\
  distinct_nonempty ("" :: spec_owner_names svc dbs)
    = distinct_nonempty (spec_owner_names svc dbs) /\
  distinct_nonempty ("" :: spec_tag_fqns svc dbs)
    = distinct_nonempty (spec_tag_fqns svc dbs).
Proof.
  cbv zeta. destruct (summary_sets svc dbs stats now) as [Ho Ht].
  rewrite Ho, Ht, !size_names_set. repeat split.
Qed.

Lemma graft_table_tag_fqns (g : ColumnModel.t -> list ColumnModel.t) (t : TableModel.t) :
  table_tag_fqns (graft_table g t) = table_tag_fqns t.
Proof.
  destruct t. unfold graft_table, table_tag_fqns. cbn. f_equal.
  induction columns as [|c cols IH]; [reflexivity|].
  cbn. rewrite IH. f_equal. destruct c. reflexivity.
Qed.

Lemma graft_schema_tag_fqns (g : ColumnModel.t -> list ColumnModel.t) (s : SchemaModel.t) :
  schema_tag_fqns (graft_schema g s) = schema_tag_fqns s.
Proof.
  destruct s. unfold graft_schema, schema_tag_fqns. cbn. f_equal.
  induction tables as [|t ts IH]; [reflexivity|].
  cbn. now rewrite IH, graft_table_tag_fqns.
Qed.

Lemma graft_tag_fqns (g : ColumnModel.t -> list ColumnModel.t) (db : DatabaseModel.t) :
  database_tag_fqns (graft g db) = database_tag_fqns db.
Proof.
  destruct db. unfold graft, database_tag_fqns. cbn. f_equal.
  induction schemas as [|s ss IH]; [reflexivity|].
  cbn. now rewrite IH, graft_schema_tag_fqns.
Qed.

(** C10.  Only the tags of the columns of a table reach [total_tags]:
    whatever is put in place of the children of the columns, at any
    depth and with any tags, [total_tags] is the same.  In the tree
    [nested_tree] the child column carries the tag [PII.Sensitive] and
    [total_tags] is 1, the tag of the top-level column. *)
Theorem nested_column_tags_not_counted :
  (forall (svc : ServiceModel.t) (dbs : list DatabaseModel.t) (stats : SummaryStats.t)
          (now : string) (g : ColumnModel.t -> list ColumnModel.t),
     MetadataSummary.total_tags (_create_metadata_summary svc (map (graft g) dbs) stats now)
     = MetadataSummary.total_tags (_create_metadata_summary svc dbs stats now)) /\
  (exists svc dbs,
     nested_tree = Ok (svc, dbs) /\
     flat_map nested_tag_fqns (columns_of dbs) = ["PII.Sensitive"] /\
     forall stats now,
       MetadataSummary.total_tags (_create_metadata_summary svc dbs stats now) = 1).
Proof.
  split.
  - intros svc dbs stats now g.
    destruct (summary_sets svc (map (graft g) dbs) stats now) as [_ ->].
    destruct (summary_sets svc dbs stats now) as [_ ->].
    unfold spec_tag_fqns. do 3 f_equal.
    induction dbs as [|db dbs IH]; [reflexivity|].
    cbn. now rewrite IH, graft_tag_fqns.
  - eexists _, _. split; [reflexivity|]. split; [reflexivity|].
    intros stats now.
    rewrite (proj2 (summary_sets _ _ stats now)), size_names_set.
    vm_compute. reflexivity.
Qed.

(* ================================================================== *)
(** ** Properties of the walker *)
(* ================================================================== *)

Section WalkerProperties.
Context `{Env}.

Lemma bind_ok {A B} (m : M A) (k : A -> M B) (w w' : World) (b : B) :
  bind m k w = (Ok b, w') ->
  exists a w1, m w = (Ok a, w1) /\ k a w1 = (Ok b, w').
Proof.
  unfold bind. destruct (m w) as [[a|e] w1]; intros Hk.
  - exists a, w1. auto.
  - discriminate.
Qed.

Lemma lift_ok {A} (r : result A) (w w' : World) (a : A) :
  lift r w = (Ok a, w') -> r = Ok a /\ w' = w.
Proof. unfold lift. intros Hr. injection Hr as -> ->. auto. Qed.

Lemma ret_ok {A} (x a : A) (w w' : World) :
  ret x w = (Ok a, w') -> a = x /\ w' = w.
Proof. unfold ret. intros Hr. injection Hr as -> ->. auto. Qed.

(** A [try] whose handlers all end in a raise returns only what its
    body returns. *)
Lemma try_except_raising_ok {A} (m : M A) (handler : exn -> option (M A))
    (w w' : World) (a : A) :
  (forall e h w1 x w2, handler e = Some h -> h w1 <> (Ok x, w2)) ->
  try_except m handler w = (Ok a, w') -> m w = (Ok a, w').
Proof.
  unfold try_except. intros Hraise.
  destruct (m w) as [[x|e] w1]; [auto|].
  destruct (handler e) as [h|] eqn:Hh; [|discriminate].
  intros Hw. exfalso. exact (Hraise _ _ _ _ _ Hh Hw).
Qed.

Lemma mapM_M_ok {A B} (P : B -> Prop) (f : A -> M B) (l : list A) :
  (forall x w a w', f x w = (Ok a, w') -> P a) ->
  forall w l' w', mapM_M f l w = (Ok l', w') ->
  length l' = length l /\ Forall P l'.
Proof.
  intros Hf. induction l as [|x xs IH]; intros w l' w' Hl.
  - apply ret_ok in Hl as [-> _]. split; [reflexivity | constructor].
  - cbn [mapM_M] in Hl.
    apply bind_ok in Hl as (y & w1 & Hy & Hl).
    apply bind_ok in Hl as (ys & w2 & Hys & Hl).
    apply ret_ok in Hl as [-> _].
    destruct (IH _ _ _ Hys) as [Hlen Hall].
    split; [simpl; now f_equal | constructor; eauto].
Qed.

Lemma mapM_M_Forall2 {A B} (R : A -> B -> Prop) (f : A -> M B) (l : list A) :
  (forall x w a w', f x w = (Ok a, w') -> R x a) ->
  forall w l' w', mapM_M f l w = (Ok l', w') -> Forall2 R l l'.
Proof.
  intros Hf. induction l as [|x xs IH]; intros w l' w' Hl.
  - apply ret_ok in Hl as [-> _]. constructor.
  - cbn [mapM_M] in Hl.
    apply bind_ok in Hl as (y & w1 & Hy & Hl).
    apply bind_ok in Hl as (ys & w2 & Hys & Hl).
    apply ret_ok in Hl as [-> _]. constructor; eauto.
Qed.

(** *** Enrichment *)

Lemma fetch_detailed_total (base_url : string) (table_id : json) (f1 f2 f3 : bool)
    (w : World) :
  exists j w', _fetch_detailed_table_metadata base_url table_id f1 f2 f3 w = (Ok j, w').
Proof.
  unfold _fetch_detailed_table_metadata, try_except, bind.
  destruct (session_get _ _ w) as [[r|e] w1]; [|eexists _, _; reflexivity].
  destruct (status_code r =? 200)%Z; [|eexists _, _; reflexivity].
  unfold lift. destruct (response_json r); eexists _, _; reflexivity.
Qed.

Lemma fetch_detailed_fault (base_url : string) (table_id : json) (f1 f2 f3 : bool)
    (w w' : World) (e : exn) :
  session_get (base_url +:+ "/tables/" +:+ py_str table_id) (detail_params f1 f2 f3) w
    = (Raise e, w') ->
  _fetch_detailed_table_metadata base_url table_id f1 f2 f3 w = (Ok JNull, w').
Proof.
  intros Hsend. unfold _fetch_detailed_table_metadata, try_except, bind.
  rewrite Hsend. reflexivity.
Qed.

Lemma fetch_detailed_non_200 (base_url : string) (table_id : json) (f1 f2 f3 : bool)
    (w w' : World) (r : Response) :
  session_get (base_url +:+ "/tables/" +:+ py_str table_id) (detail_params f1 f2 f3) w
    = (Ok r, w') ->
  status_code r <> 200%Z ->
  _fetch_detailed_table_metadata base_url table_id f1 f2 f3 w = (Ok JNull, w').
Proof.
  intros Hsend Hstatus. unfold _fetch_detailed_table_metadata, try_except, bind.
  rewrite Hsend. apply Z.eqb_neq in Hstatus. rewrite Hstatus. reflexivity.
Qed.

Lemma process_table_fallback (base_url : string) (f1 f2 f3 : bool)
    (d : list (string * json)) (w w' : World) :
  py_truthy (dict_get d "id" JNull) = true ->
  _fetch_detailed_table_metadata base_url (dict_get d "id" JNull) f1 f2 f3 w
    = (Ok JNull, w') ->
  process_table base_url f1 f2 f3 (JObj d) w = (_create_table_model (JObj d) f1 f2 f3, w').
Proof.
  intros Hid Hfetch. unfold process_table, bind, lift. cbn [py_get].
  rewrite Hid, Hfetch. reflexivity.
Qed.

(** X20.  A listed table without a truthy ["id"] is normalised from
    its listing record, and no detail call is made: the world is left
    as it was. *)
Lemma process_table_no_id (base_url : string) (f1 f2 f3 : bool)
    (d : list (string * json)) (w : World) :
  py_truthy (dict_get d "id" JNull) = false ->
  process_table base_url f1 f2 f3 (JObj d) w = (_create_table_model (JObj d) f1 f2 f3, w).
Proof.
  intros Hid. unfold process_table, bind, lift. cbn [py_get].
  rewrite Hid. reflexivity.
Qed.

(** A tables listing that is returned was built from one upstream
    answer: with a status other than 200 it is empty, and with 200 it
    holds, one for one and in order, what [process_table] made of the
    records of the ["data"] array. *)
Lemma process_tables_follow_listing (base_url : string) (f1 f2 f3 : bool)
    (schema_data : json) (w w' : World) (l : list TableModel.t) (n : nat) :
  _process_database_tables base_url schema_data f1 f2 f3 w = (Ok (l, n), w') ->
  exists fqn r w1,
    py_get schema_data "fullyQualifiedName" JNull = Ok fqn /\
    session_get (base_url +:+ "/tables") (tables_listing_params fqn) w = (Ok r, w1) /\
    (status_code r <> 200%Z -> l = [] /\ n = 0) /\
    (status_code r = 200%Z ->
     exists body,
       response_json r = Ok (JObj body) /\
       forall items,
         dict_get body "data" (JArr []) = JArr items ->
         n = length items /\
         Forall2 (processed_from base_url f1 f2 f3) items l).
Proof.
  unfold _process_database_tables. intros Hrun.
  apply bind_ok in Hrun as (fqn & w0 & Hfqn & Hrun).
  apply lift_ok in Hfqn as [Hfqn ->].
  apply bind_ok in Hrun as (r & w1 & Hsend & Hrun).
  exists fqn, r, w1. split; [exact Hfqn|]. split; [exact Hsend|].
  destruct (status_code r =? 200)%Z eqn:Hst; cbn [negb] in Hrun.
  - apply Z.eqb_eq in Hst. split; [intros Hne; contradiction|]. intros _.
    apply bind_ok in Hrun as (tables_data & w3 & Hjson & Hrun).
    apply lift_ok in Hjson as [Hjson ->].
    apply bind_ok in Hrun as (tables & w4 & Hget & Hrun).
    apply lift_ok in Hget as [Hget ->].
    apply bind_ok in Hrun as (items & w5 & Hitems & Hrun).
    apply lift_ok in Hitems as [Hitems ->].
    apply bind_ok in Hrun as (l' & w6 & Hl & Hrun).
    apply bind_ok in Hrun as (m & w7 & Hm & Hrun).
    apply lift_ok in Hm as [Hm ->].
    apply ret_ok in Hrun as [Hpair _]. injection Hpair as -> ->.
    destruct tables_data as [| | | | | |body]; try discriminate.
    injection Hget as <-. exists body. split; [exact Hjson|].
    intros items0 Hdata. rewrite Hdata in Hitems, Hm.
    injection Hitems as <-. injection Hm as <-. split; [reflexivity|].
    eapply mapM_M_Forall2; [|exact Hl].
    intros x wa a wb Hx. exists wa, wb. exact Hx.
  - apply Z.eqb_neq in Hst. split; [|intros Heq; contradiction]. intros _.
    apply ret_ok in Hrun as [Hpair _]. injection Hpair as -> ->. auto.
Qed.

(** X22.  The detail fetch of a table never raises; when the call
    raises, or answers with a status other than 200, its outcome is
    "no enrichment" ([None]); the walker then hands the record of the
    listing to [_create_table_model], whose outcome, a model or an
    exception, is the outcome for that table; and a tables listing that
    is returned holds one table model per listed record, in order, each
    made by the walker from its record. *)
Theorem enrichment_is_best_effort (base_url : string) (f1 f2 f3 : bool) :
  (forall table_id w,
     exists j w', _fetch_detailed_table_metadata base_url table_id f1 f2 f3 w = (Ok j, w')) /\
  (forall table_id w w' e,
     session_get (base_url +:+ "/tables/" +:+ py_str table_id) (detail_params f1 f2 f3) w
       = (Raise e, w') ->
     _fetch_detailed_table_metadata base_url table_id f1 f2 f3 w = (Ok JNull, w')) /\
  (forall table_id w w' r,
     session_get (base_url +:+ "/tables/" +:+ py_str table_id) (detail_params f1 f2 f3) w
       = (Ok r, w') ->
     status_code r <> 200%Z ->
     _fetch_detailed_table_metadata base_url table_id f1 f2 f3 w = (Ok JNull, w')) /\
  (forall d w w',
     py_truthy (dict_get d "id" JNull) = true ->
     _fetch_detailed_table_metadata base_url (dict_get d "id" JNull) f1 f2 f3 w
       = (Ok JNull, w') ->
     process_table base_url f1 f2 f3 (JObj d) w
       = (_create_table_model (JObj d) f1 f2 f3, w')) /\
  (forall schema_data w w' tables_list n,
     _process_database_tables base_url schema_data f1 f2 f3 w
       = (Ok (tables_list, n), w') ->
     length tables_list = n) /\
  (forall schema_data w w' tables_list n,
     _process_database_tables base_url schema_data f1 f2 f3 w
       = (Ok (tables_list, n), w') ->
     exists fqn r w1,
       py_get schema_data "fullyQualifiedName" JNull = Ok fqn /\
       session_get (base_url +:+ "/tables") (tables_listing_params fqn) w = (Ok r, w1) /\
       (status_code r <> 200%Z -> tables_list = [] /\ n = 0) /\
       (status_code r = 200%Z ->
        exists body,
          response_json r = Ok (JObj body) /\
          forall items,
            dict_get body "data" (JArr []) = JArr items ->
            n = length items /\
            Forall2 (processed_from base_url f1 f2 f3) items tables_list)).
Proof.
  split; [|split; [|split; [|split; [|split]]]];
    [| | | | | intros schema_data w w' tables_list n;
               apply process_tables_follow_listing].
  - intros. apply fetch_detailed_total.
  - intros. eapply fetch_detailed_fault; eauto.
  - intros. eapply fetch_detailed_non_200; eauto.
  - intros d w w' Hid Hfetch. now apply process_table_fallback.
  - intros schema_data w w' tables_list n Hrun.
    unfold _process_database_tables in Hrun.
    apply bind_ok in Hrun as (fqn & w1 & _ & Hrun).
    apply bind_ok in Hrun as (r & w2 & _ & Hrun).
    destruct (negb (status_code r =? 200)%Z).
    + apply ret_ok in Hrun as [Hpair _]. injection Hpair as -> ->. reflexivity.
    + apply bind_ok in Hrun as (tables_data & w3 & _ & Hrun).
      apply bind_ok in Hrun as (tables & w4 & _ & Hrun).
      apply bind_ok in Hrun as (items & w5 & Hitems & Hrun).
      apply bind_ok in Hrun as (l & w6 & Hl & Hrun).
      apply bind_ok in Hrun as (m & w7 & Hm & Hrun).
      apply ret_ok in Hrun as [Hpair _]. injection Hpair as -> ->.
      apply lift_ok in Hitems as [Hitems _]. apply lift_ok in Hm as [Hm _].
      apply py_iter_len in Hitems. rewrite Hitems in Hm. injection Hm as <-.
      eapply (mapM_M_ok (fun _ => True)); [auto | exact Hl].
Qed.

(** *** Listing failures *)

Lemma process_tables_non_200 (base_url : string) (f1 f2 f3 : bool)
    (d : list (string * json)) (w w' : World) (r : Response) :
  session_get (base_url +:+ "/tables")
    (tables_listing_params (dict_get d "fullyQualifiedName" JNull)) w = (Ok r, w') ->
  status_code r <> 200%Z ->
  _process_database_tables base_url (JObj d) f1 f2 f3 w = (Ok ([], 0), w').
Proof.
  intros Hsend Hstatus. unfold _process_database_tables, bind, lift. cbn [py_get].
  rewrite Hsend. apply Z.eqb_neq in Hstatus. rewrite Hstatus. reflexivity.
Qed.







(** *** Counts *)

Lemma create_table_model_counts (table : json) (f1 f2 f3 : bool) (m : TableModel.t) :
  _create_table_model table f1 f2 f3 = Ok m -> table_counts_ok m.
Proof.
  destruct table; try discriminate. cbn [_create_table_model]. intros Hm.
  peel Hm. injection Hm as <-. unfold table_counts_ok. cbn.
  match goal with
  | Hx : rbind (py_iter _) _ = Ok _ |- _ =>
      apply rbind_ok in Hx as (cols & Hcols%py_iter_len & Hmap%mapM_length)
  end.
  congruence.
Qed.

Lemma py_len_falsy (v : json) (n : nat) :
  py_truthy v = false -> py_len v = Ok n -> n = 0.
Proof.
  destruct v as [| | | |s|l|l]; simpl; try discriminate.
  - destruct s; [intros _ Hn; now injection Hn | discriminate].
  - destruct l; [intros _ Hn; now injection Hn | discriminate].
  - destruct l; [intros _ Hn; now injection Hn | discriminate].
Qed.

Lemma listing_table_model_counts (table : json) (m : TableModel.t) :
  listing_table_model true table = Ok m -> table_counts_ok m.
Proof.
  destruct table as [| | | | | |d]; try discriminate. cbn [listing_table_model andb].
  intros Hm. peel Hm. injection Hm as <-. unfold table_counts_ok. cbn.
  destruct (py_truthy (dict_get d "columns" JNull)) eqn:Htruthy.
  - match goal with
    | Hx : rbind (py_iter _) _ = Ok _ |- _ =>
        apply rbind_ok in Hx as (cols & Hcols%py_iter_len & Hmap%mapM_length)
    end.
    congruence.
  - match goal with Hx : Ok [] = Ok _ |- _ => injection Hx as <- end.
    unfold dict_get in *. destruct (dict_lookup d "columns") as [c|].
    + eapply py_len_falsy; eauto.
    + cbn in *. congruence.
Qed.

Lemma listing_table_model_no_columns (table : json) (m : TableModel.t) :
  listing_table_model false table = Ok m -> TableModel.columns m = [].
Proof.
  destruct table as [| | | | | |d]; try discriminate. cbn [listing_table_model andb].
  intros Hm. peel Hm. injection Hm as <-. cbn. congruence.
Qed.

(** Whatever [include_columns] is, the [column_count] of a listed table
    is [len(table.get("columns", []))] of its upstream record (line 781). *)
Lemma listing_table_model_upstream (include_columns : bool) (table : json)
    (m : TableModel.t) :
  listing_table_model include_columns table = Ok m -> upstream_column_count table m.
Proof.
  destruct table as [| | | | | |d]; try discriminate. cbn [listing_table_model].
  intros Hm. peel Hm. injection Hm as <-. exists d. split; [reflexivity|].
  cbn. assumption.
Qed.

Lemma mapM_forall {A B} (P : B -> Prop) (f : A -> result B) (l : list A) (l' : list B) :
  (forall x y, f x = Ok y -> P y) -> mapM f l = Ok l' -> Forall P l'.
Proof.
  intros Hf. revert l'. induction l as [|x xs IH]; simpl; intros l' Hl.
  - injection Hl as <-. constructor.
  - apply rbind_ok in Hl as (y & Hy & Hl).
    apply rbind_ok in Hl as (ys & Hys & Hl).
    injection Hl as <-. constructor; eauto.
Qed.

Lemma tables_response_counts (service_name : string) (dn sn : option string)
    (include_columns : bool) (resp : Response) (r : TablesResponse.t) :
  tables_response_of service_name dn sn include_columns resp = Ok r ->
  TablesResponse.count r = length (TablesResponse.tables r) /\
  TablesResponse.filter r
    = {| TableFilterInfo.database_name := dn;
         TableFilterInfo.schema_name := sn;
         TableFilterInfo.include_columns := include_columns |} /\
  (include_columns = true -> Forall table_counts_ok (TablesResponse.tables r)) /\
  (include_columns = false ->
   Forall (fun t => TableModel.columns t = []) (TablesResponse.tables r)).
Proof.
  unfold tables_response_of. intros Hr. peel Hr. injection Hr as <-. cbn.
  split; [reflexivity|]. split; [reflexivity|].
  match goal with
  | Hx : (if py_truthy ?t then _ else _) = Ok _ |- _ =>
      destruct (py_truthy t);
        [apply rbind_ok in Hx as (items & _ & Hmap) | injection Hx as <-]
  end.
  - split; intros ->.
    + eapply mapM_forall; [|exact Hmap]. intros x y. apply listing_table_model_counts.
    + eapply mapM_forall; [|exact Hmap]. intros x y. apply listing_table_model_no_columns.
  - split; intros _; constructor.
Qed.

(** The tables of a listing response are built, one for one and in
    order, from the records of the upstream ["data"] array, each with
    the column count of its record. *)
Lemma tables_response_upstream (service_name : string) (dn sn : option string)
    (include_columns : bool) (resp : Response) (r : TablesResponse.t) :
  tables_response_of service_name dn sn include_columns resp = Ok r ->
  exists body,
    response_json resp = Ok (JObj body) /\
    forall items,
      dict_get body "data" (JArr []) = JArr items ->
      Forall2 upstream_column_count items (TablesResponse.tables r).
Proof.
  unfold tables_response_of. intros Hr.
  apply rbind_ok in Hr as (u & _ & Hr).
  apply rbind_ok in Hr as (tables_data & Hjson & Hr).
  apply rbind_ok in Hr as (tables & Hget & Hr).
  apply rbind_ok in Hr as (tables_list & Hlist & Hr).
  injection Hr as <-. cbn [TablesResponse.tables].
  destruct tables_data as [| | | | | |body]; try discriminate.
  injection Hget as <-. exists body. split; [exact Hjson|].
  intros items Hitems. rewrite Hitems in Hlist.
  destruct items as [|item items'].
  - cbn in Hlist. injection Hlist as <-. constructor.
  - cbn [py_truthy py_iter rbind] in Hlist.
    change (mapM (listing_table_model include_columns) (item :: items') = Ok tables_list)
      in Hlist.
    apply mapM_Forall2 in Hlist.
    eapply Forall2_weaken; [|exact Hlist].
    intros x y. apply listing_table_model_upstream.
Qed.

Lemma get_service_tables_ok (service_name : string) (dn sn : option string)
    (include_columns : bool) (w w' : World) (r : TablesResponse.t) :
  get_service_tables service_name dn sn include_columns w = (Ok r, w') ->
  exists resp,
    session_get (api_base +:+ "/tables") (tables_filter_params service_name dn sn) w
      = (Ok resp, w') /\
    tables_response_of service_name dn sn include_columns resp = Ok r.
Proof.
  unfold get_service_tables. intros Hrun.
  apply try_except_raising_ok in Hrun.
  - apply bind_ok in Hrun as (resp & w1 & Hsend & Hrun).
    apply lift_ok in Hrun as [Hresp ->]. eauto.
  - intros e h w1 x w2 Hh. destruct e; injection Hh as <-; discriminate.
Qed.

Lemma process_table_counts (base_url : string) (f1 f2 f3 : bool) (table : json)
    (w w' : World) (m : TableModel.t) :
  process_table base_url f1 f2 f3 table w = (Ok m, w') -> table_counts_ok m.
Proof.
  unfold process_table. intros Hrun.
  apply bind_ok in Hrun as (tid & w1 & _ & Hrun).
  apply bind_ok in Hrun as (detailed & w2 & _ & Hrun).
  apply lift_ok in Hrun as [Hm _]. eapply create_table_model_counts; eauto.
Qed.

Lemma process_tables_counts (base_url : string) (f1 f2 f3 : bool) (schema_data : json)
    (w w' : World) (l : list TableModel.t) (n : nat) :
  _process_database_tables base_url schema_data f1 f2 f3 w = (Ok (l, n), w') ->
  n = length l /\ Forall table_counts_ok l.
Proof.
  unfold _process_database_tables. intros Hrun.
  apply bind_ok in Hrun as (fqn & w1 & _ & Hrun).
  apply bind_ok in Hrun as (r & w2 & _ & Hrun).
  destruct (negb (status_code r =? 200)%Z).
  - apply ret_ok in Hrun as [Hpair _]. injection Hpair as -> ->.
    split; [reflexivity | constructor].
  - apply bind_ok in Hrun as (tables_data & w3 & _ & Hrun).
    apply bind_ok in Hrun as (tables & w4 & _ & Hrun).
    apply bind_ok in Hrun as (items & w5 & Hitems & Hrun).
    apply bind_ok in Hrun as (l0 & w6 & Hl & Hrun).
    apply bind_ok in Hrun as (m & w7 & Hm & Hrun).
    apply ret_ok in Hrun as [Hpair _]. injection Hpair as -> ->.
    apply lift_ok in Hitems as [Hitems%py_iter_len _]. apply lift_ok in Hm as [Hm _].
    rewrite Hitems in Hm. injection Hm as <-.
    destruct (mapM_M_ok table_counts_ok _ items
                (fun x w a w' => process_table_counts base_url f1 f2 f3 x w w' a)
                _ _ _ Hl) as [Hlen Hall].
    split; [now symmetry | exact Hall].
Qed.

Lemma schema_model_ok (schema : json) (l : list TableModel.t) (n : nat)
    (m : SchemaModel.t) :
  schema_model schema l n = Ok m ->
  SchemaModel.tables m = l /\ SchemaModel.table_count m = n.
Proof.
  destruct schema; try discriminate. cbn [schema_model]. intros Hm.
  peel Hm. injection Hm as <-. split; reflexivity.
Qed.

Lemma process_schema_counts (base_url : string) (f1 f2 f3 : bool) (schema : json)
    (w w' : World) (m : SchemaModel.t) :
  process_schema base_url f1 f2 f3 schema w = (Ok m, w') -> schema_counts_ok m.
Proof.
  unfold process_schema. intros Hrun.
  apply bind_ok in Hrun as ([l n] & w1 & Htables & Hrun).
  apply lift_ok in Hrun as [Hm _].
  apply schema_model_ok in Hm as [Hl Hn].
  apply process_tables_counts in Htables as [Hlen Hall].
  unfold schema_counts_ok. cbn [fst snd] in *. rewrite Hl, Hn. auto.
Qed.

Lemma process_schemas_counts (base_url : string) (f1 f2 f3 : bool) (database_data : json)
    (w w' : World) (l : list SchemaModel.t) :
  _process_database_schemas base_url database_data f1 f2 f3 w = (Ok l, w') ->
  Forall schema_counts_ok l.
Proof.
  unfold _process_database_schemas. intros Hrun.
  apply bind_ok in Hrun as (fqn & w1 & _ & Hrun).
  apply bind_ok in Hrun as (r & w2 & _ & Hrun).
  destruct (negb (status_code r =? 200)%Z).
  - apply ret_ok in Hrun as [-> _]. constructor.
  - apply bind_ok in Hrun as (schemas_data & w3 & _ & Hrun).
    apply bind_ok in Hrun as (schemas & w4 & _ & Hrun).
    apply bind_ok in Hrun as (items & w5 & _ & Hrun).
    eapply (mapM_M_ok schema_counts_ok); [|exact Hrun].
    intros x w0 a w0'. apply process_schema_counts.
Qed.

Lemma database_model_ok (database : json) (owners : list OwnerModel.t)
    (ss : list SchemaModel.t) (n : nat) (m : DatabaseModel.t) :
  database_model database owners ss n = Ok m ->
  DatabaseModel.schemas m = ss /\
  DatabaseModel.schema_count m = length ss /\
  DatabaseModel.table_count m = n.
Proof.
  destruct database; try discriminate. cbn [database_model]. intros Hm.
  peel Hm. injection Hm as <-. repeat split.
Qed.

Lemma list_sum_lengths {A B} (f : A -> list B) (l : list A) :
  list_sum (map (fun x => length (f x)) l) = length (concat (map f l)).
Proof.
  induction l as [|x l IH]; simpl; [reflexivity|].
  now rewrite length_app, IH.
Qed.

Lemma sum_table_counts_ok (ss : list SchemaModel.t) :
  Forall schema_counts_ok ss ->
  sum_table_counts ss = length (concat (map SchemaModel.tables ss)).
Proof.
  unfold sum_table_counts. intros Hall.
  rewrite <- list_sum_lengths. f_equal.
  induction Hall as [|s ss [Hs _] _ IH]; simpl; [reflexivity | now rewrite Hs, IH].
Qed.

Lemma process_database_walk_ok (base_url : string) (f1 f2 f3 : bool)
    (st st' : walk_state) (database : json) (w w' : World) :
  process_database base_url f1 f2 f3 st database w = (Ok st', w') ->
  walk_ok st ->
  walk_ok st' /\ length (databases_list st') = S (length (databases_list st)).
Proof.
  unfold process_database. intros Hrun (Hdbs & Hs & Ht & Hc).
  apply bind_ok in Hrun as (owners & w1 & _ & Hrun).
  apply bind_ok in Hrun as (ss & w2 & Hss%process_schemas_counts & Hrun).
  apply bind_ok in Hrun as (m & w3 & Hm & Hrun).
  apply lift_ok in Hm as [Hm _].
  apply database_model_ok in Hm as (Hschemas & Hcount & Htables).
  apply ret_ok in Hrun as [-> _]. cbn [databases_list total_schemas total_tables total_columns].
  pose proof (sum_table_counts_ok ss Hss) as Hsum.
  split; [|rewrite length_app; simpl; lia].
  unfold walk_ok. cbn [databases_list total_schemas total_tables total_columns].
  unfold schemas_of, columns_of, tables_of in *.
  rewrite !map_app, !concat_app, !map_app, !concat_app, !length_app. cbn [map concat].
  rewrite !app_nil_r, Hschemas.
  repeat split.
  - apply Forall_app. split; [exact Hdbs|]. constructor; [|constructor].
    unfold database_counts_ok. rewrite Hschemas, Hcount, Htables. auto.
  - lia.
  - lia.
  - unfold sum_column_counts. rewrite list_sum_lengths. lia.
Qed.

Lemma foldM_walk_ok (base_url : string) (f1 f2 f3 : bool) (items : list json) :
  forall st st' w w',
    foldM (process_database base_url f1 f2 f3) items st w = (Ok st', w') ->
    walk_ok st ->
    walk_ok st' /\ length (databases_list st') = length (databases_list st) + length items.
Proof.
  induction items as [|x xs IH]; intros st st' w w' Hrun Hst.
  - apply ret_ok in Hrun as [-> _]. split; [exact Hst | simpl; lia].
  - cbn [foldM] in Hrun.
    apply bind_ok in Hrun as (st1 & w1 & Hstep & Hrun).
    destruct (process_database_walk_ok _ _ _ _ _ _ _ _ _ Hstep Hst) as [Hst1 Hlen1].
    destruct (IH _ _ _ _ Hrun Hst1) as [Hst' Hlen'].
    split; [exact Hst' | simpl; lia].
Qed.

Lemma process_databases_counts (base_url service_name : string) (f1 f2 f3 : bool)
    (w w' : World) (dbs : list DatabaseModel.t) (stats : SummaryStats.t) :
  _process_databases base_url service_name f1 f2 f3 w = (Ok (dbs, stats), w') ->
  Forall database_counts_ok dbs /\
  SummaryStats.total_databases stats = length dbs /\
  SummaryStats.total_schemas stats = length (schemas_of dbs) /\
  SummaryStats.total_tables stats = length (tables_of dbs) /\
  SummaryStats.total_columns stats = length (columns_of dbs).
Proof.
  unfold _process_databases. intros Hrun.
  apply bind_ok in Hrun as (r & w1 & _ & Hrun).
  apply bind_ok in Hrun as (u & w2 & _ & Hrun).
  apply bind_ok in Hrun as (databases_data & w3 & _ & Hrun).
  apply bind_ok in Hrun as (databases & w4 & _ & Hrun).
  apply bind_ok in Hrun as (n & w5 & Hn & Hrun).
  apply bind_ok in Hrun as (items & w6 & Hitems & Hrun).
  apply bind_ok in Hrun as (st & w7 & Hfold & Hrun).
  apply ret_ok in Hrun as [Hpair _]. injection Hpair as -> ->.
  apply lift_ok in Hn as [Hn _]. apply lift_ok in Hitems as [Hitems%py_iter_len _].
  rewrite Hitems in Hn. injection Hn as <-.
  apply foldM_walk_ok in Hfold as [(Hdbs & Hs & Ht & Hc) Hlen].
  - cbn in *. repeat split; auto.
  - unfold walk_ok. cbn. repeat split; constructor.
Qed.

Lemma extract_counts (service_name : string) (f1 f2 f3 : bool) (w w' : World)
    (r : DatabaseMetadataResponse.t) :
  extract_database_metadata service_name f1 f2 f3 w = (Ok r, w') ->
  response_counts_ok r.
Proof.
  unfold extract_database_metadata. intros Hrun.
  apply try_except_raising_ok in Hrun.
  - apply bind_ok in Hrun as (service_data & w1 & _ & Hrun).
    apply bind_ok in Hrun as (u & w2 & _ & Hrun).
    apply bind_ok in Hrun as (svc & w3 & _ & Hrun).
    apply bind_ok in Hrun as ([dbs stats] & w4 & Hwalk & Hrun).
    apply bind_ok in Hrun as (now & w5 & _ & Hrun).
    apply ret_ok in Hrun as [-> _].
    apply process_databases_counts in Hwalk. exact Hwalk.
  - intros e h w1 x w2 Hh. destruct e; try discriminate; injection Hh as <-; discriminate.
Qed.

(** C2 (as amended).  In every response of the metadata extraction,
    each database, schema and table has counts equal to the lengths of
    the lists it holds, and the four totals of the summary are the
    numbers of databases, schemas, tables and columns of the tree; a
    failed tables listing gives an empty list with a count of zero.
    On the table-listing endpoint [count] is the number of tables; with
    [include_columns] set, [column_count] is the length of the column
    list of each table; with [include_columns] unset the column list is
    empty and [column_count] is the number of columns of the upstream
    record. *)
Theorem derived_counts_match_lists (service_name : string) (f1 f2 f3 : bool)
    (database_name schema_name : option string) (w w' : World) :
  (forall r,
     extract_database_metadata service_name f1 f2 f3 w = (Ok r, w') ->
     response_counts_ok r) /\
  (forall d resp,
     session_get (api_base +:+ "/tables")
       (tables_listing_params (dict_get d "fullyQualifiedName" JNull)) w = (Ok resp, w') ->
     status_code resp <> 200%Z ->
     _process_database_tables api_base (JObj d) f1 f2 f3 w = (Ok ([], 0), w')) /\
  (forall r,
     get_service_tables service_name database_name schema_name true w = (Ok r, w') ->
     TablesResponse.count r = length (TablesResponse.tables r) /\
     Forall table_counts_ok (TablesResponse.tables r)) /\
  (forall r,
     get_service_tables service_name database_name schema_name false w = (Ok r, w') ->
     TablesResponse.count r = length (TablesResponse.tables r) /\
     Forall (fun t => TableModel.columns t = []) (TablesResponse.tables r) /\
     exists resp body,
       session_get (api_base +:+ "/tables")
         (tables_filter_params service_name database_name schema_name) w
         = (Ok resp, w') /\
       response_json resp = Ok (JObj body) /\
       forall items,
         dict_get body "data" (JArr []) = JArr items ->
         Forall2 upstream_column_count items (TablesResponse.tables r)).
Proof.
  split; [|split; [|split]].
  - intros r. apply extract_counts.
  - intros d resp. apply process_tables_non_200.
  - intros r (resp & _ & Hr)%get_service_tables_ok.
    apply tables_response_counts in Hr as (Hcount & _ & Hcols & _). auto.
  - intros r (resp & Hsend & Hr)%get_service_tables_ok.
    destruct (tables_response_upstream _ _ _ _ _ _ Hr) as (body & Hjson & Hitems).
    apply tables_response_counts in Hr as (Hcount & _ & _ & Hnone).
    split; [exact Hcount|]. split; [auto|].
    exists resp, body. auto.
Qed.

(** *** The service record *)

(** An answer with an error status, whichever it is, ends the fetch of
    the service record in a 500. *)
Lemma fetch_service_error_status (service_name : string) (w w' : World) (r : Response) :
  session_get (api_base +:+ "/services/databaseServices/name/" +:+ service_name)
    service_fetch_params w = (Ok r, w') ->
  response_ok r = false ->
  _fetch_service_metadata api_base service_name w
  = (Raise (HTTPException 500 ("Failed to fetch service metadata: " +:+ http_error_msg r)),
     w').
Proof.
  intros Hsend Hok. unfold _fetch_service_metadata, try_except, bind, lift, raise_for_status.
  rewrite Hsend, Hok. reflexivity.
Qed.

(** The 404 of line 84 is raised for the answers that are neither 200
    nor an error status. *)
Lemma fetch_service_not_found (service_name : string) (w w' : World) (r : Response) :
  session_get (api_base +:+ "/services/databaseServices/name/" +:+ service_name)
    service_fetch_params w = (Ok r, w') ->
  response_ok r = true ->
  status_code r <> 200%Z ->
  _fetch_service_metadata api_base service_name w
  = (Raise (HTTPException 404 ("Service '" +:+ service_name +:+ "' not found")), w').
Proof.
  intros Hsend Hok Hstatus.
  unfold _fetch_service_metadata, try_except, bind, lift, raise_for_status.
  rewrite Hsend, Hok. apply Z.eqb_neq in Hstatus. rewrite Hstatus. reflexivity.
Qed.

(** Whatever goes wrong, the caller of the extraction endpoint receives
    an [HTTPException]. *)
Lemma extract_raises_http_exception (service_name : string) (f1 f2 f3 : bool)
    (w w' : World) (e : exn) :
  extract_database_metadata service_name f1 f2 f3 w = (Raise e, w') ->
  is_HTTPException e = true.
Proof.
  unfold extract_database_metadata, try_except.
  match goal with |- context [match ?m w with _ => _ end] => destruct (m w) as [[r|e0] w1] end.
  - discriminate.
  - destruct e0; cbn; intros He; injection He as <- _; reflexivity.
Qed.

(** *** The table listing *)

(** C9 (as amended).  A name counts as given when it is a non-empty
    string.  With a database and a schema name given, the upstream
    filter is the one parameter [databaseSchema], set to
    [<service_name>.<database_name>.<schema_name>]; with a database name
    given and the schema name missing or empty it is [database], set to
    [<service_name>.<database_name>]; with the database name missing or
    empty it is [service], whatever the schema name.  The endpoint
    makes exactly one upstream call, [GET <base>/tables] with that
    filter, and a response it returns echoes the requested
    [database_name], [schema_name] and [include_columns] as they were
    sent. *)
Theorem table_listing_filter (service_name : string) (include_columns : bool) :
  (forall d s,
     d <> "" -> s <> "" ->
     tables_filter_params service_name (Some d) (Some s)
     = [("databaseSchema", JStr (service_name +:+ "." +:+ d +:+ "." +:+ s))]) /\
  (forall d sn,
     d <> "" -> sn = None \/ sn = Some "" ->
     tables_filter_params service_name (Some d) sn
     = [("database", JStr (service_name +:+ "." +:+ d))]) /\
  (forall dn sn,
     dn = None \/ dn = Some "" ->
     tables_filter_params service_name dn sn = [("service", JStr service_name)]) /\
  (forall dn sn w,
     exists out,
       get_service_tables service_name dn sn include_columns w
       = (out, snd (session_get (api_base +:+ "/tables")
                      (tables_filter_params service_name dn sn) w))) /\
  (forall dn sn w w' r,
     get_service_tables service_name dn sn include_columns w = (Ok r, w') ->
     TablesResponse.filter r
     = {| TableFilterInfo.database_name := dn;
          TableFilterInfo.schema_name := sn;
          TableFilterInfo.include_columns := include_columns |}).
Proof.
  assert (Htruthy : forall x, x <> "" -> str_truthy x = true)
    by (intros x Hx; unfold str_truthy; apply negb_true_iff, String.eqb_neq, Hx).
  split; [|split; [|split; [|split]]].
  - intros d s Hd Hs. unfold tables_filter_params. cbn.
    now rewrite (Htruthy d Hd), (Htruthy s Hs).
  - intros d sn Hd [-> | ->]; unfold tables_filter_params; cbn;
      now rewrite (Htruthy d Hd).
  - intros dn sn [-> | ->]; reflexivity.
  - intros dn sn w. unfold get_service_tables, try_except, bind.
    destruct (session_get _ _ w) as [[resp|e] w1]; cbn [snd].
    + unfold lift. destruct (tables_response_of _ _ _ _ resp) as [r|e].
      * eexists. reflexivity.
      * destruct e; eexists; reflexivity.
    + destruct e; eexists; reflexivity.
  - intros dn sn w w' r (resp & _ & Hr)%get_service_tables_ok.
    apply tables_response_counts in Hr as (_ & Hfilter & _). exact Hfilter.
Qed.

(** *** Service creation *)

(** The test of line 566, [http_error.response and
    http_error.response.status_code == 409], never holds: a response
    with status 409 is falsy. *)
Lemma conflict_test_never_holds (resp : option Response) :
  error_response_truthy resp &&
  match resp with
  | Some r => (status_code r =? 409)%Z
  | None => false
  end = false.
Proof.
  destruct resp as [r|]; [|reflexivity]. cbn. unfold response_ok.
  destruct (status_code r =? 409)%Z eqn:Hs; [|apply andb_false_r].
  apply Z.eqb_eq in Hs. rewrite Hs. reflexivity.
Qed.

(** Hence no outcome of the creation call is the "already exists"
    message of line 568. *)
Lemma create_upstream_outcome (base_url : string) (payload : DatabaseServicePayload.t)
    (w w' : World) (m : MessageResponse.t) :
  create_upstream base_url payload w = (Ok m, w') ->
  exists created_name created_id,
    m = {| MessageResponse.message :=
             "Database service '" +:+ py_str created_name
             +:+ "' created successfully in OpenMetadata with ID: "
             +:+ py_str created_id |}.
Proof.
  unfold create_upstream, try_except.
  match goal with |- context [match ?b w with _ => _ end] => destruct (b w) as [[x|e] w1] eqn:Hb end.
  - intros Hm. injection Hm as <- <-.
    apply bind_ok in Hb as (r & w2 & _ & Hb).
    apply bind_ok in Hb as (u & w3 & _ & Hb).
    apply bind_ok in Hb as (created & w4 & _ & Hb).
    apply bind_ok in Hb as (cid & w5 & _ & Hb).
    apply bind_ok in Hb as (cname & w6 & _ & Hb).
    apply ret_ok in Hb as [-> _]. eauto.
  - destruct e; try discriminate.
    rewrite conflict_test_never_holds. discriminate.
Qed.

End WalkerProperties.

(* ================================================================== *)
(** ** Runs against the scripted upstream *)
(* ================================================================== *)


(** C2 as stated fails on the table-listing endpoint without columns:
    the table of [two_column_listing] is returned with an empty column
    list and a [column_count] of 2. *)
Lemma listing_without_columns_count_mismatch :
  exists r t,
    fst (run (get_service_tables "crm" None None false)
             [json_response 200 "OK" two_column_listing]) = Ok r /\
    TablesResponse.tables r = [t] /\
    TableModel.column_count t = 2 /\
    TableModel.columns t = [] /\
    ~ table_counts_ok t.
Proof.
  eexists _, _. split; [vm_compute; reflexivity|].
  split; [reflexivity|]. split; [reflexivity|]. split; [reflexivity|].
  unfold table_counts_ok. cbn. discriminate.
Qed.

(** C5 (the code falls short of it).  A failed enrichment can end the
    whole extraction.  The tables listing of a schema gives the table
    [orders], whose column has a flat type and no display string.  When
    the detail fetch of [orders] is answered 404, or the connection
    fails, the fetch itself gives "no enrichment" without raising, but
    the walker then normalises the listing record, which raises (the
    unguarded fallback of line 41), and the request ends in a 500: no
    tree is returned and [orders] appears nowhere.  With the detail
    fetch answered, the same extraction returns the tree with its one
    table. *)
Theorem enrichment_failure_ends_extraction :
  (exists w',
     @_fetch_detailed_table_metadata scripted scripted_base (JStr "t2") false false false
       ([json_response 404 "Not Found" JNull], []) = (Ok JNull, w')) /\
  fst (run (extract_database_metadata "crm" false false false)
           (orders_script (json_response 404 "Not Found" JNull)))
  = Raise (HTTPException 500
             "Failed to extract metadata: 'str' object has no attribute 'get'") /\
  fst (run (extract_database_metadata "crm" false false false)
           (orders_script (Raise (RequestException "Connection reset by peer"))))
  = Raise (HTTPException 500
             "Failed to extract metadata: 'str' object has no attribute 'get'") /\
  (exists r,
     fst (run (extract_database_metadata "crm" false false false)
              (orders_script (json_response 200 "OK" (JObj orders_detailed)))) = Ok r /\
     MetadataSummary.total_tables (DatabaseMetadataResponse.summary r) = 1).
Proof.
  split; [|split; [|split]].
  - eexists. vm_compute. reflexivity.
  - vm_compute. reflexivity.
  - vm_compute. reflexivity.
  - eexists. split; [vm_compute; reflexivity|]. reflexivity.
Qed.

(** C8 (the code falls short of it). An absent service, for which the
    upstream answers 404, and an upstream failure, for which it answers
    503, both reach the caller as a 500. *)
Theorem absent_service_is_reported_as_500 :
  fst (run (extract_database_metadata "crm" false false false)
           [json_response 404 "Not Found" (JObj [("code", JInt 404)])])
  = Raise (HTTPException 500
             "Failed to fetch service metadata: 404 Client Error: Not Found for url: http://om:8585/api/v1") /\
  fst (run (extract_database_metadata "crm" false false false)
           [json_response 503 "Service Unavailable" JNull])
  = Raise (HTTPException 500
             "Failed to fetch service metadata: 503 Server Error: Service Unavailable for url: http://om:8585/api/v1").
Proof. split; vm_compute; reflexivity. Qed.

(** C7 (the code falls short of it).  The existence check does not find
    the service (404) and the creation call is answered 409 Conflict:
    the caller receives a 500 error response, not the "already exists"
    message. *)
Theorem conflict_on_creation_is_reported_as_500 :
  fst (run (create_database_service crm_payload)
           [json_response 404 "Not Found" JNull;
            json_response 409 "Conflict" (JObj [("message", JStr "Entity already exists")])])
  = Raise (HTTPException 500
             "OpenMetadata service creation failed: 409 Client Error: Conflict for url: http://om:8585/api/v1").
Proof. vm_compute. reflexivity. Qed.

(** The part of C7 the code does deliver: when the existence check
    finds the service, the answer is a success message and the only
    call made is the check. *)
Lemma existing_service_is_success :
  run (create_database_service crm_payload)
      [json_response 200 "OK" (JObj [("id", JStr "7f3a"); ("name", JStr "crm")])]
  = (Ok {| MessageResponse.message :=
             "Database service 'crm' already exists in OpenMetadata with ID: 7f3a" |},
     [mkRequest GET "http://om:8585/api/v1/services/databaseServices/name/crm" [] None 30]).
Proof. vm_compute. reflexivity. Qed.

(** Two calls in a row against an upstream that keeps what it is sent:
    the first check finds nothing and the service is created, the
    second check finds it.  Both calls answer with a success message. *)
Lemma create_twice_succeeds :
  fst (run (create_database_service crm_payload)
           [json_response 404 "Not Found" JNull;
            json_response 201 "Created" (JObj [("id", JStr "7f3a"); ("name", JStr "crm")])])
  = Ok {| MessageResponse.message :=
            "Database service 'crm' created successfully in OpenMetadata with ID: 7f3a" |} /\
  fst (run (create_database_service crm_payload)
           [json_response 200 "OK" (JObj [("id", JStr "7f3a"); ("name", JStr "crm")])])
  = Ok {| MessageResponse.message :=
            "Database service 'crm' already exists in OpenMetadata with ID: 7f3a" |}.
Proof. split; vm_compute; reflexivity. Qed.

(** An extraction during which a schemas listing, a detail fetch and a
    tables listing fail is returned all the same: [sales] has no
    schemas, [audit] has no tables, and [people] is there, built from
    its listing record. *)
Lemma walk_survives_failed_listings :
  exists r,
    fst (run (extract_database_metadata "crm" false false false) walk_script) = Ok r /\
    map DatabaseModel.name (DatabaseMetadataResponse.databases r) = ["sales"; "hr"] /\
    map DatabaseModel.schema_count (DatabaseMetadataResponse.databases r) = [0; 2] /\
    map (fun s => (SchemaModel.name s, SchemaModel.table_count s))
        (schemas_of (DatabaseMetadataResponse.databases r))
      = [("public", 1); ("audit", 0)] /\
    map TableModel.name (tables_of (DatabaseMetadataResponse.databases r)) = ["people"] /\
    MetadataSummary.total_tables (DatabaseMetadataResponse.summary r) = 1.
Proof.
  eexists. split; [vm_compute; reflexivity|]. repeat split.
Qed.


(** An instance of [derived_counts_match_lists]: the extraction of
    [walk_script] and the two table listings of [two_column_listing]. *)
Lemma derived_counts_witness :
  (exists r w',
     @extract_database_metadata scripted "crm" false false false (walk_script, [])
     = (Ok r, w') /\
     response_counts_ok r) /\
  (exists r w',
     @get_service_tables scripted "crm" None None true
       ([json_response 200 "OK" two_column_listing], []) = (Ok r, w') /\
     Forall table_counts_ok (TablesResponse.tables r)) /\
  (exists r w',
     @get_service_tables scripted "crm" None None false
       ([json_response 200 "OK" two_column_listing], []) = (Ok r, w') /\
     TablesResponse.count r = length (TablesResponse.tables r) /\
     Forall (fun t => TableModel.columns t = []) (TablesResponse.tables r) /\
     exists resp body,
       @session_get scripted (scripted_base +:+ "/tables")
         (tables_filter_params "crm" None None)
         ([json_response 200 "OK" two_column_listing], []) = (Ok resp, w') /\
       response_json resp = Ok (JObj body) /\
       forall items,
         dict_get body "data" (JArr []) = JArr items ->
         Forall2 upstream_column_count items (TablesResponse.tables r)).
Proof.
  split; [|split].
  - eexists _, _. split; [vm_compute; reflexivity|].
    eapply (proj1 (@derived_counts_match_lists scripted "crm" false false false
                     None None (walk_script, []) _)).
    vm_compute. reflexivity.
  - eexists _, _. split; [vm_compute; reflexivity|].
    eapply (proj1 (proj2 (proj2 (@derived_counts_match_lists scripted "crm"
                     false false false None None
                     ([json_response 200 "OK" two_column_listing], []) _)))).
    vm_compute. reflexivity.
  - eexists _, _. split; [vm_compute; reflexivity|].
    exact (proj2 (proj2 (proj2 (@derived_counts_match_lists scripted "crm"
                     false false false None None
                     ([json_response 200 "OK" two_column_listing], [])
                     (snd (@get_service_tables scripted "crm" None None false
                             ([json_response 200 "OK" two_column_listing], []))))))
             _ eq_refl).
Defined.

(** An instance of [enrichment_is_best_effort]: the detail fetch of
    [people] is answered 404, or the connection fails, and the table is
    built from its listing record; the tables listing of [public] then
    holds the one table made from the listed record. *)
Lemma enrichment_witness :
  (exists w',
     @_fetch_detailed_table_metadata scripted scripted_base (JStr "t1") false false false
       ([json_response 404 "Not Found" JNull], []) = (Ok JNull, w')) /\
  (exists w',
     @_fetch_detailed_table_metadata scripted scripted_base (JStr "t1") false false false
       ([], []) = (Ok JNull, w')) /\
  (exists w',
     @process_table scripted scripted_base false false false (JObj people_table)
       ([json_response 404 "Not Found" JNull], [])
     = (_create_table_model (JObj people_table) false false false, w')) /\
  is_ok (_create_table_model (JObj people_table) false false false) = true /\
  (exists l n w',
     @_process_database_tables scripted scripted_base (JObj public_schema)
       false false false
       ([json_response 200 "OK" (JObj [("data", JArr [JObj people_table])]);
         json_response 404 "Not Found" JNull], [])
     = (Ok (l, n), w') /\
     n = 1 /\
     Forall2 (@processed_from scripted scripted_base false false false)
       [JObj people_table] l).
Proof.
  destruct (@enrichment_is_best_effort scripted scripted_base false false false)
    as (_ & Hfault & Hstatus & Hfallback & _ & Hlisting).
  split; [|split; [|split; [|split]]].
  - eexists. eapply (Hstatus (JStr "t1")); [reflexivity | cbn; lia].
  - eexists. eapply (Hfault (JStr "t1")). reflexivity.
  - eexists. eapply (Hfallback people_table); [reflexivity|].
    eapply (Hstatus (JStr "t1")); [reflexivity | cbn; lia].
  - reflexivity.
  - eexists _, _, _. split; [vm_compute; reflexivity|].
    match goal with
    | |- _ /\ Forall2 _ _ ?l =>
        destruct (Hlisting (JObj public_schema)
                    ([json_response 200 "OK" (JObj [("data", JArr [JObj people_table])]);
                      json_response 404 "Not Found" JNull], [])
                    _ l 1 eq_refl)
          as (fqn & r & w1 & Hfqn & Hsend & _ & H200)
    end.
    injection Hfqn as <-. injection Hsend as <- <-.
    destruct (H200 eq_refl) as (body & Hjson & Hitems).
    injection Hjson as <-. apply (Hitems [JObj people_table]). reflexivity.
Defined.

(** An instance of [table_listing_filter]: the three filters, and the
    one call of a listing of the schema [crm.sales.public]. *)
Lemma table_listing_filter_witness :
  tables_filter_params "crm" (Some "sales") (Some "public")
  = [("databaseSchema", JStr "crm.sales.public")] /\
  tables_filter_params "crm" (Some "sales") (Some "")
  = [("database", JStr "crm.sales")] /\
  tables_filter_params "crm" (Some "") (Some "public") = [("service", JStr "crm")] /\
  snd (run (get_service_tables "crm" (Some "sales") (Some "public") true)
           [json_response 200 "OK" two_column_listing])
  = [mkRequest GET "http://om:8585/api/v1/tables"
       [("databaseSchema", JStr "crm.sales.public")] None 30].
Proof.
  destruct (@table_listing_filter scripted "crm" true)
    as (Hboth & Hdatabase & Hservice & _).
  split; [|split; [|split]].
  - apply (Hboth "sales" "public"); discriminate.
  - apply (Hdatabase "sales" (Some "")); [discriminate | right; reflexivity].
  - apply (Hservice (Some "") (Some "public")). right. reflexivity.
  - vm_compute. reflexivity.
Defined.

(** C9 as stated fails when a name is sent empty: with
    [database_name] empty and [schema_name] given, both are supplied,
    yet the upstream filter is [service] and not [databaseSchema]; the
    response echoes the empty name. *)
Lemma empty_database_name_filters_by_service :
  tables_filter_params "crm" (Some "") (Some "public") = [("service", JStr "crm")] /\
  tables_filter_params "crm" (Some "") (Some "public")
  <> [("databaseSchema", JStr ("crm" +:+ "." +:+ "" +:+ "." +:+ "public"))] /\
  snd (run (get_service_tables "crm" (Some "") (Some "public") true)
           [json_response 200 "OK" two_column_listing])
  = [mkRequest GET "http://om:8585/api/v1/tables" [("service", JStr "crm")] None 30] /\
  exists r,
    fst (run (get_service_tables "crm" (Some "") (Some "public") true)
             [json_response 200 "OK" two_column_listing]) = Ok r /\
    TablesResponse.filter r
    = {| TableFilterInfo.database_name := Some "";
         TableFilterInfo.schema_name := Some "public";
         TableFilterInfo.include_columns := true |}.
Proof.
  split; [reflexivity|]. split; [discriminate|].
  split; [vm_compute; reflexivity|].
  eexists. split; [vm_compute; reflexivity|]. reflexivity.
Qed.

(* ================================================================== *)
(** ** Further properties of the normalisers *)
(* ================================================================== *)

Lemma str_field_ok (field : string) (v : json) (s : string) :
  str_field field v = Ok s -> v = JStr s.
Proof. destruct v; simpl; intros Hs; try discriminate. now injection Hs as <-. Qed.

Lemma tag_model_ok (item : json) (t : TagModel.t) :
  tag_model item = Ok t -> tag_of_record item t.
Proof.
  destruct item as [| | | | | |fields]; try discriminate. cbn [tag_model]. intros Ht.
  peel Ht. injection Ht as <-. exists fields. cbn.
  repeat split. eapply str_field_ok; eauto.
Qed.

Lemma owner_model_ok (item : json) (o : OwnerModel.t) :
  owner_model item = Ok o -> owner_of_record item o.
Proof.
  destruct item as [| | | | | |fields]; try discriminate. cbn [owner_model]. intros Ho.
  peel Ho. injection Ho as <-. exists fields. cbn.
  repeat split; eapply str_field_ok; eauto.
Qed.

(** X1.  The include list of a detail fetch starts with the twelve
    fixed entries, whatever the flags; each optional entry is in the
    list exactly when its flag is set; and with the lineage flag
    ["dataProducts"] is listed twice. *)
Theorem build_include_params_flags (f1 f2 f3 : bool) :
  let ps := _build_include_params f1 f2 f3 in
  firstn 12 ps = base_include_params /\
  str_in "sampleData" ps = f1 /\
  str_in "tableProfile" ps = f2 /\
  str_in "profile" ps = f2 /\
  str_in "lineage" ps = f3 /\
  str_in "upstream" ps = f3 /\
  str_in "downstream" ps = f3 /\
  occurrences "dataProducts" ps = (if f3 then 2 else 1) /\
  length ps = 12 + (if f1 then 1 else 0) + (if f2 then 2 else 0) + (if f3 then 4 else 0).
Proof. destruct f1, f2, f3; cbv zeta; repeat split. Qed.

(** X2.  The tags and the owners of a record are normalised entry by
    entry, in the order of the record: the models correspond one to one
    to the entries, an entry without ["tagFQN"] or ["name"] gives the
    empty string and is not dropped; a record without the key has no
    tags or owners. *)
Theorem tags_and_owners_keep_entries (d : list (string * json)) :
  (forall items l,
     dict_lookup d "tags" = Some (JArr items) -> tag_models d = Ok l ->
     Forall2 tag_of_record items l) /\
  (forall items l,
     dict_lookup d "owners" = Some (JArr items) -> owner_models d = Ok l ->
     Forall2 owner_of_record items l) /\
  (dict_lookup d "tags" = None -> tag_models d = Ok []) /\
  (dict_lookup d "owners" = None -> owner_models d = Ok []).
Proof.
  unfold tag_models, owner_models, dict_get.
  split; [|split; [|split]].
  - intros items l -> Hl. cbn in Hl.
    eapply Forall2_weaken; [|apply mapM_Forall2, Hl]. apply tag_model_ok.
  - intros items l -> Hl. cbn in Hl.
    eapply Forall2_weaken; [|apply mapM_Forall2, Hl]. apply owner_model_ok.
  - intros ->. reflexivity.
  - intros ->. reflexivity.
Qed.

(** An instance of [tags_and_owners_keep_entries]: two tags, the second
    without a ["tagFQN"]. *)
Lemma tags_and_owners_witness :
  exists l,
    tag_models [("tags", JArr [JObj [("tagFQN", JStr "PII.Sensitive")];
                               JObj [("source", JStr "Classification")]])] = Ok l /\
    Forall2 tag_of_record
      [JObj [("tagFQN", JStr "PII.Sensitive")]; JObj [("source", JStr "Classification")]] l /\
    map TagModel.tagFQN l = ["PII.Sensitive"; ""].
Proof.
  eexists. split; [reflexivity|]. split; [|reflexivity].
  eapply (proj1 (tags_and_owners_keep_entries
                   [("tags", JArr [JObj [("tagFQN", JStr "PII.Sensitive")];
                                   JObj [("source", JStr "Classification")]])]));
    reflexivity.
Defined.

(** X3.  The children of a column model are the models of the child
    records, one for each and in their order, built by the same
    function. *)
Theorem column_children_are_normalised (d : list (string * json))
    (items : list json) (c : ColumnModel.t) :
  dict_lookup d "children" = Some (JArr items) ->
  _create_column_model (JObj d) = Ok c ->
  Forall2 (fun item child => _create_column_model item = Ok child)
          items (ColumnModel.children c).
Proof.
  intros Hchildren. rewrite create_column_model_eq. unfold column_fields, dict_get.
  rewrite Hchildren. intros Hc. peel Hc. injection Hc as <-. cbn.
  match goal with Hx : rbind (py_iter (JArr items)) _ = Ok _ |- _ => cbn in Hx; apply mapM_Forall2 in Hx; exact Hx end.
Qed.

(** An instance of [column_children_are_normalised]. *)
Lemma column_children_witness :
  exists c child,
    _create_column_model
      (JObj [("name", JStr "address");
             ("children", JArr [JObj [("name", JStr "zip")]])]) = Ok c /\
    ColumnModel.children c = [child] /\
    _create_column_model (JObj [("name", JStr "zip")]) = Ok child.
Proof.
  eexists _, _. split; [reflexivity|]. split; [reflexivity|].
  pose proof (column_children_are_normalised
                [("name", JStr "address");
                 ("children", JArr [JObj [("name", JStr "zip")]])]
                [JObj [("name", JStr "zip")]] _ eq_refl eq_refl) as Hall.
  inversion Hall as [|x y l l' Hchild _]. exact Hchild.
Defined.

(** X4.  A column record that has no type descriptor, no tags, no
    children and no constraint is normalised, with the defaults: no
    [dataType], no precision, scale or maxLength, empty lists, and for
    [dataTypeDisplay] the record's value when it is truthy and null
    otherwise; the name is the record's, or the empty string. *)
Theorem column_defaults (d : list (string * json)) (name : string) :
  dict_lookup d "dataType" = None ->
  dict_lookup d "tags" = None ->
  dict_lookup d "children" = None ->
  dict_lookup d "constraint" = None ->
  dict_get d "name" (JStr "") = JStr name ->
  exists c,
    _create_column_model (JObj d) = Ok c /\
    ColumnModel.name c = name /\
    ColumnModel.dataType c = JNull /\
    ColumnModel.dataTypeDisplay c
      = (if py_truthy (dict_get d "dataTypeDisplay" JNull)
         then dict_get d "dataTypeDisplay" JNull else JNull) /\
    ColumnModel.constraint c = JNull /\
    ColumnModel.precision c = JNull /\
    ColumnModel.scale c = JNull /\
    ColumnModel.maxLength c = JNull /\
    ColumnModel.tags c = [] /\
    ColumnModel.children c = [].
Proof.
  intros Hty Htags Hchildren Hconstraint Hname.
  rewrite create_column_model_eq. unfold column_fields, tag_models.
  rewrite Hname. unfold dict_get. rewrite Hty, Htags, Hchildren, Hconstraint.
  cbn. destruct (py_truthy _); cbn; eexists; repeat split.
Qed.

(** An instance of [column_defaults]. *)
Lemma column_defaults_witness :
  exists c,
    _create_column_model (JObj [("description", JStr "free text")]) = Ok c /\
    ColumnModel.name c = "" /\ ColumnModel.dataType c = JNull /\
    ColumnModel.children c = [].
Proof.
  destruct (column_defaults [("description", JStr "free text")] ""
              eq_refl eq_refl eq_refl eq_refl eq_refl)
    as (c & Hc & Hname & Hty & _ & _ & _ & _ & _ & _ & Hchildren).
  exists c. auto.
Defined.

(** X5.  A column record whose type descriptor is a flat string is
    normalised only if it has a truthy ["dataTypeDisplay"]: without
    one, normalisation raises an [AttributeError]. *)
Theorem flat_type_needs_display (d : list (string * json)) (s : string) :
  dict_lookup d "dataType" = Some (JStr s) ->
  py_truthy (dict_get d "dataTypeDisplay" JNull) = false ->
  _create_column_model (JObj d)
  = Raise (AttributeError "'str' object has no attribute 'get'").
Proof. intros Hty Hdisplay. now rewrite (create_column_model_flat_type d s). Qed.

(** An instance of [flat_type_needs_display]: an empty display string. *)
Lemma flat_type_needs_display_witness :
  _create_column_model
    (JObj [("name", JStr "id"); ("dataType", JStr "BIGINT"); ("dataTypeDisplay", JStr "")])
  = Raise (AttributeError "'str' object has no attribute 'get'").
Proof. apply (flat_type_needs_display _ "BIGINT"); reflexivity. Defined.

(** X6.  The three request flags decide nothing but the three heavy
    fields of a table model: [sampleData], [tableProfile] and [lineage]
    are the record's values when their flag is set and null otherwise,
    and a record that is normalised under some flags is normalised
    under all. *)
Theorem heavy_fields_follow_flags (d : list (string * json)) (f1 f2 f3 : bool)
    (m : TableModel.t) :
  _create_table_model (JObj d) f1 f2 f3 = Ok m ->
  TableModel.sampleData m = (if f1 then dict_get d "sampleData" JNull else JNull) /\
  TableModel.tableProfile m = (if f2 then dict_get d "tableProfile" JNull else JNull) /\
  TableModel.lineage m = (if f3 then dict_get d "lineage" JNull else JNull) /\
  forall g1 g2 g3, exists m',
    _create_table_model (JObj d) g1 g2 g3 = Ok m' /\
    TableModel.columns m' = TableModel.columns m /\
    TableModel.name m' = TableModel.name m.
Proof.
  cbn [_create_table_model]. intros Hm. peel Hm. injection Hm as <-. cbn.
  repeat split. intros g1 g2 g3.
  repeat match goal with
         | Hx : ?e = Ok _ |- context [rbind ?e _] => rewrite Hx; cbn [rbind]
         end.
  eexists. repeat split.
Qed.

(** An instance of [heavy_fields_follow_flags]. *)
Lemma heavy_fields_witness :
  exists m,
    _create_table_model
      (JObj [("name", JStr "orders"); ("sampleData", JObj [("rows", JArr [])])])
      false true true = Ok m /\
    TableModel.sampleData m = JNull.
Proof.
  eexists. split; [reflexivity|].
  apply (heavy_fields_follow_flags
           [("name", JStr "orders"); ("sampleData", JObj [("rows", JArr [])])]
           false true true _ eq_refl).
Defined.

(** *** The base URL *)

Lemma list_ascii_of_string_app (s t : string) :
  list_ascii_of_string (s +:+ t)
  = (list_ascii_of_string s ++ list_ascii_of_string t)%list.
Proof. induction s as [|c s IH]; simpl; [reflexivity | now rewrite IH]. Qed.

Lemma drop_leading_head (c x : ascii) (l xs : list ascii) :
  drop_leading c l = x :: xs -> x <> c.
Proof.
  induction l as [|y l IH]; simpl; [discriminate|].
  destruct (Ascii.eqb y c) eqn:Hy; [exact IH|].
  intros Hl. injection Hl as <- _. now apply Ascii.eqb_neq.
Qed.

(** X7.  The base URL is not affected by trailing slashes of the
    configured URL: stripping ignores one more slash at the end, what
    it returns does not end in a slash, and a URL that does not end in
    a slash is taken as it is. *)
Theorem rstrip_slash_trailing (s : string) :
  rstrip_slash (s +:+ "/") = rstrip_slash s /\
  (forall t, rstrip_slash s <> t +:+ "/") /\
  ((forall t, s <> t +:+ "/") -> rstrip_slash s = s).
Proof.
  unfold rstrip_slash. split; [|split].
  - rewrite list_ascii_of_string_app. cbn [list_ascii_of_string].
    rewrite rev_unit. reflexivity.
  - intros t Ht.
    apply (f_equal list_ascii_of_string) in Ht.
    rewrite list_ascii_of_string_of_list_ascii, list_ascii_of_string_app in Ht.
    apply (f_equal (@rev ascii)) in Ht.
    rewrite rev_involutive in Ht. cbn [list_ascii_of_string] in Ht.
    rewrite rev_unit in Ht.
    now apply drop_leading_head in Ht.
  - intros Hs.
    destruct (rev (list_ascii_of_string s)) as [|x xs] eqn:Hrev.
    + cbn. apply (f_equal (@rev ascii)) in Hrev. rewrite rev_involutive in Hrev.
      rewrite <- (string_of_list_ascii_of_string s), Hrev. reflexivity.
    + cbn [drop_leading]. destruct (Ascii.eqb x "/"%char) eqn:Hx.
      * exfalso. apply Ascii.eqb_eq in Hx. subst x.
        apply (Hs (string_of_list_ascii (rev xs))).
        rewrite <- (string_of_list_ascii_of_string s) at 1.
        apply (f_equal (@rev ascii)) in Hrev. rewrite rev_involutive in Hrev.
        rewrite Hrev. cbn [rev].
        rewrite <- (string_of_list_ascii_of_string (_ +:+ "/")).
        rewrite list_ascii_of_string_app, list_ascii_of_string_of_list_ascii.
        reflexivity.
      * rewrite <- Hrev, rev_involutive. apply string_of_list_ascii_of_string.
Qed.

(** An instance of [rstrip_slash_trailing]. *)
Lemma rstrip_slash_witness : rstrip_slash "http://om:8585" = "http://om:8585".
Proof.
  apply (proj2 (proj2 (rstrip_slash_trailing "http://om:8585"))).
  intros t Ht.
  apply (f_equal (fun x => rev (list_ascii_of_string x))) in Ht. cbv beta in Ht.
  rewrite list_ascii_of_string_app in Ht. cbn [list_ascii_of_string] in Ht.
  rewrite rev_unit in Ht. cbn in Ht. discriminate Ht.
Defined.

(** *** The creation request *)

(** X8.  The body of the creation request always binds ["name"],
    ["serviceType"] and ["connection"], the latter to a dict that holds
    the payload's connection under ["config"]; ["description"],
    ["displayName"], ["tags"] and ["owners"] are bound only when the
    payload's value is non-empty, the tags as [{"tagFQN": tag}] records
    in their order. *)
Theorem service_request_fields (payload : DatabaseServicePayload.t) :
  exists fields,
    service_request_of payload = JObj fields /\
    dict_lookup fields "name" = Some (JStr (DatabaseServicePayload.name payload)) /\
    dict_lookup fields "serviceType"
      = Some (JStr (DatabaseServicePayload.serviceType payload)) /\
    dict_lookup fields "connection"
      = Some (JObj [("config", DatabaseServicePayload.connection payload)]) /\
    dict_lookup fields "description"
      = match DatabaseServicePayload.description payload with
        | Some (String c s) => Some (JStr (String c s))
        | _ => None
        end /\
    dict_lookup fields "displayName"
      = match DatabaseServicePayload.displayName payload with
        | Some (String c s) => Some (JStr (String c s))
        | _ => None
        end /\
    dict_lookup fields "tags"
      = match DatabaseServicePayload.tags payload with
        | Some (t :: ts) =>
            Some (JArr (map (fun tag => JObj [("tagFQN", JStr tag)]) (t :: ts)))
        | _ => None
        end /\
    (dict_lookup fields "owners" = None <->
     match DatabaseServicePayload.owners payload with
     | Some (_ :: _) => False
     | _ => True
     end).
Proof.
  destruct payload as [name ty conn [[|c1 s1]|] [[|c2 s2]|] [[|t ts]|] [[|o os]|]];
    eexists; (split; [reflexivity|]); cbn;
    repeat split; try reflexivity; try tauto; try discriminate.
Qed.

(** *** The table listing *)

Lemma listing_table_model_record (include_columns : bool) (item : json)
    (t : TableModel.t) :
  listing_table_model include_columns item = Ok t -> table_of_record item t.
Proof.
  destruct item as [| | | | | |fields]; try discriminate.
  cbn [listing_table_model]. intros Ht. peel Ht. injection Ht as <-.
  exists fields. cbn. repeat split; eapply str_field_ok; eauto.
Qed.

(** X9.  The tables of a listing response are the models of the listed
    records, one for each and in the order of the upstream answer; an
    answer whose ["data"] is missing, null or empty gives an empty list
    and a count of zero. *)
Theorem listing_follows_upstream (service_name : string) (dn sn : option string)
    (include_columns : bool) (resp : Response) (body : list (string * json)) :
  response_json resp = Ok (JObj body) ->
  (forall items r,
     dict_lookup body "data" = Some (JArr items) ->
     tables_response_of service_name dn sn include_columns resp = Ok r ->
     Forall2 table_of_record items (TablesResponse.tables r)) /\
  (response_ok resp = true ->
   py_truthy (dict_get body "data" (JArr [])) = false ->
   tables_response_of service_name dn sn include_columns resp
   = Ok {| TablesResponse.service_name := service_name;
           TablesResponse.filter :=
             {| TableFilterInfo.database_name := dn;
                TableFilterInfo.schema_name := sn;
                TableFilterInfo.include_columns := include_columns |};
           TablesResponse.tables := [];
           TablesResponse.count := 0 |}).
Proof.
  intros Hjson. unfold tables_response_of. split.
  - intros items r Hdata Hr.
    apply rbind_ok in Hr as (u & _ & Hr). rewrite Hjson in Hr.
    cbn [rbind py_get] in Hr. unfold dict_get in Hr. rewrite Hdata in Hr.
    apply rbind_ok in Hr as (l & Hl & Hr). injection Hr as <-. cbn.
    destruct items as [|x xs]; cbn [py_truthy py_iter rbind] in Hl.
    + injection Hl as <-. constructor.
    + eapply Forall2_weaken; [|apply mapM_Forall2, Hl].
      apply listing_table_model_record.
  - intros Hok Hdata. unfold raise_for_status. rewrite Hok, Hjson.
    cbn [rbind py_get]. rewrite Hdata. reflexivity.
Qed.

(** An instance of [listing_follows_upstream]: an answer with a null
    ["data"]. *)
Lemma listing_follows_upstream_witness :
  exists r,
    tables_response_of "crm" None None true
      (mkResponse 200 "OK" scripted_base (Some (JObj [("data", JNull)])) "") = Ok r /\
    TablesResponse.tables r = [] /\ TablesResponse.count r = 0.
Proof.
  eexists. split.
  - apply (proj2 (listing_follows_upstream "crm" None None true
                    (mkResponse 200 "OK" scripted_base (Some (JObj [("data", JNull)])) "")
                    [("data", JNull)] eq_refl)); reflexivity.
  - split; reflexivity.
Defined.

(* ================================================================== *)
(** ** Further properties of the endpoints *)
(* ================================================================== *)

Section EndpointProperties.
Context `{Env}.

(** *** Service creation *)

(** X10.  A service type outside the allow-list is rejected with a 400
    that lists the accepted types, and no upstream call is made: the
    world is left as it was. *)
Theorem invalid_service_type_rejected (payload : DatabaseServicePayload.t) (w : World) :
  str_in (DatabaseServicePayload.serviceType payload) valid_service_types = false ->
  create_database_service payload w
  = (Raise (HTTPException 400
       "Invalid serviceType. Must be one of: MySQL, PostgreSQL, BigQuery, Snowflake, Redshift, Oracle, MSSQL, MongoDB, Cassandra, Clickhouse, Databricks, Athena, Hive, Presto, Trino"),
     w).
Proof.
  intros Hinvalid. unfold create_database_service, try_except.
  rewrite Hinvalid. reflexivity.
Qed.

(** X11.  When the existence check is answered 200 with a JSON object,
    the endpoint answers that the service already exists, with the
    identifier of the answer, and the check is the only call made. *)
Theorem existing_service_short_circuits (payload : DatabaseServicePayload.t)
    (w w' : World) (r : Response) (body : list (string * json)) :
  str_in (DatabaseServicePayload.serviceType payload) valid_service_types = true ->
  session_get (api_base +:+ "/services/databaseServices/name/"
                 +:+ DatabaseServicePayload.name payload) [] w = (Ok r, w') ->
  status_code r = 200%Z ->
  response_json r = Ok (JObj body) ->
  create_database_service payload w
  = (Ok {| MessageResponse.message :=
             "Database service '" +:+ DatabaseServicePayload.name payload
             +:+ "' already exists in OpenMetadata with ID: "
             +:+ py_str (dict_get body "id" JNull) |}, w').
Proof.
  intros Hvalid Hsend Hstatus Hjson.
  unfold create_database_service, try_except, check_existing, try_except.
  rewrite Hvalid. cbn [negb]. unfold bind at 1. unfold bind at 1.
  rewrite Hsend, Hstatus. cbn [Z.eqb Pos.eqb].
  unfold bind, lift. rewrite Hjson. reflexivity.
Qed.

Lemma check_existing_absent (payload : DatabaseServicePayload.t) (w w1 : World)
    (r0 : Response) :
  session_get (api_base +:+ "/services/databaseServices/name/"
                 +:+ DatabaseServicePayload.name payload) [] w = (Ok r0, w1) ->
  status_code r0 <> 200%Z ->
  check_existing api_base payload w = (Ok None, w1).
Proof.
  intros Hsend Hstatus. unfold check_existing, try_except, bind.
  rewrite Hsend. apply Z.eqb_neq in Hstatus. rewrite Hstatus. reflexivity.
Qed.

(** X12.  When the existence check is answered with another status
    than 200, the creation call is made with the request built from the
    payload.  An error status of its answer, 409 included, ends the
    request in a 500 whose detail is the text of the HTTP error; an
    answer that is not an error and holds a JSON object ends it in the
    "created" message, with the name and identifier of that object. *)
Theorem creation_outcomes (payload : DatabaseServicePayload.t)
    (w w1 w2 : World) (r0 r : Response) :
  str_in (DatabaseServicePayload.serviceType payload) valid_service_types = true ->
  session_get (api_base +:+ "/services/databaseServices/name/"
                 +:+ DatabaseServicePayload.name payload) [] w = (Ok r0, w1) ->
  status_code r0 <> 200%Z ->
  session_post (api_base +:+ "/services/databaseServices")
               (service_request_of payload) w1 = (Ok r, w2) ->
  (response_ok r = false ->
   create_database_service payload w
   = (Raise (HTTPException 500
               ("OpenMetadata service creation failed: " +:+ http_error_msg r)), w2)) /\
  (forall body,
     response_ok r = true ->
     response_json r = Ok (JObj body) ->
     create_database_service payload w
     = (Ok {| MessageResponse.message :=
                "Database service '" +:+ py_str (dict_get body "name" JNull)
                +:+ "' created successfully in OpenMetadata with ID: "
                +:+ py_str (dict_get body "id" JNull) |}, w2)).
Proof.
  intros Hvalid Hcheck Hstatus Hpost.
  pose proof (check_existing_absent payload w w1 r0 Hcheck Hstatus) as Habsent.
  split.
  - intros Hok. unfold create_database_service, try_except.
    rewrite Hvalid. cbn [negb]. unfold bind at 1. rewrite Habsent.
    unfold create_upstream, try_except. unfold bind at 1. rewrite Hpost.
    unfold bind at 1. unfold lift at 1. unfold raise_for_status. rewrite Hok.
    cbn [error_response_truthy]. rewrite Hok. cbn [andb creation_error_detail].
    rewrite Hok. reflexivity.
  - intros body Hok Hjson. unfold create_database_service, try_except.
    rewrite Hvalid. cbn [negb]. unfold bind at 1. rewrite Habsent.
    unfold create_upstream, try_except. unfold bind at 1. rewrite Hpost.
    unfold bind, lift, raise_for_status. rewrite Hok, Hjson. reflexivity.
Qed.

Lemma check_existing_outcome (payload : DatabaseServicePayload.t) (w w' : World)
    (m : MessageResponse.t) :
  check_existing api_base payload w = (Ok (Some m), w') ->
  exists existing_id,
    m = {| MessageResponse.message :=
             "Database service '" +:+ DatabaseServicePayload.name payload
             +:+ "' already exists in OpenMetadata with ID: "
             +:+ py_str existing_id |}.
Proof.
  unfold check_existing, try_except.
  match goal with |- context [match ?b w with _ => _ end] =>
    destruct (b w) as [[x|e] w1] eqn:Hb end.
  - intros Hm. injection Hm as -> <-.
    apply bind_ok in Hb as (r & w2 & _ & Hb).
    destruct (status_code r =? 200)%Z.
    + apply bind_ok in Hb as (existing & w3 & _ & Hb).
      apply bind_ok in Hb as (existing_id & w4 & _ & Hb).
      apply ret_ok in Hb as [Hm _]. injection Hm as ->. eauto.
    + apply ret_ok in Hb as [Hm _]. discriminate.
  - destruct (is_HTTPError e); discriminate.
Qed.

(** X13.  A success message of the creation endpoint is one of two:
    the service already exists, with its identifier, or it was created,
    with its name and identifier.  The message without an identifier
    that the conflict handler would give is never returned. *)
Theorem creation_success_messages (payload : DatabaseServicePayload.t)
    (w w' : World) (m : MessageResponse.t) :
  create_database_service payload w = (Ok m, w') ->
  (exists existing_id,
     m = {| MessageResponse.message :=
              "Database service '" +:+ DatabaseServicePayload.name payload
              +:+ "' already exists in OpenMetadata with ID: "
              +:+ py_str existing_id |}) \/
  (exists created_name created_id,
     m = {| MessageResponse.message :=
              "Database service '" +:+ py_str created_name
              +:+ "' created successfully in OpenMetadata with ID: "
              +:+ py_str created_id |}).
Proof.
  unfold create_database_service. intros Hrun.
  apply try_except_raising_ok in Hrun.
  - destruct (negb (str_in _ _)); [discriminate|].
    apply bind_ok in Hrun as ([already|] & w1 & Hcheck & Hrun).
    + apply ret_ok in Hrun as [-> _]. left.
      eapply check_existing_outcome; eauto.
    + right. eapply create_upstream_outcome; eauto.
  - intros e h w1 x w2 Hh. destruct e; try discriminate; injection Hh as <-; discriminate.
Qed.

(** *** What the endpoints raise *)

Lemma try_except_raise {A} (m : M A) (handler : exn -> option (M A))
    (P : exn -> Prop) (w w' : World) (e : exn) :
  (forall e0, handler e0 = None -> P e0) ->
  (forall e0 h w1 e1 w2, handler e0 = Some h -> h w1 = (Raise e1, w2) -> P e1) ->
  try_except m handler w = (Raise e, w') -> P e.
Proof.
  unfold try_except. intros Hnone Hsome.
  destruct (m w) as [[x|e0] w1]; [discriminate|].
  destruct (handler e0) as [h|] eqn:Hh.
  - intros Hrun. eapply Hsome; eauto.
  - intros Hrun. injection Hrun as <- _. auto.
Qed.

(** X14.  The three endpoints that can fail raise nothing but an
    [HTTPException]: every fault inside them reaches the caller as an
    error response.  A failure of the table listing is always a 500
    whose detail starts with ["Failed to list tables: "]. *)
Theorem endpoints_raise_http_exception (w w' : World) (e : exn) :
  (forall service_name f1 f2 f3,
     extract_database_metadata service_name f1 f2 f3 w = (Raise e, w') ->
     is_HTTPException e = true) /\
  (forall payload,
     create_database_service payload w = (Raise e, w') ->
     is_HTTPException e = true) /\
  (forall service_name dn sn include_columns,
     get_service_tables service_name dn sn include_columns w = (Raise e, w') ->
     exists cause, e = HTTPException 500 ("Failed to list tables: " +:+ cause)).
Proof.
  split; [|split].
  - intros service_name f1 f2 f3. apply extract_raises_http_exception.
  - intros payload. unfold create_database_service.
    apply (try_except_raise _ _ (fun e => is_HTTPException e = true)).
    + intros e0 Hnone. destruct e0; try discriminate. reflexivity.
    + intros e0 h w1 e1 w2 Hh Hraise.
      destruct e0; try discriminate; injection Hh as <-;
        injection Hraise as <- _; reflexivity.
  - intros service_name dn sn include_columns. unfold get_service_tables.
    apply (try_except_raise _ _
             (fun e => exists cause, e = HTTPException 500 ("Failed to list tables: " +:+ cause))).
    + intros e0 Hnone. destruct e0; discriminate.
    + intros e0 h w1 e1 w2 Hh Hraise.
      destruct e0; injection Hh as <-; injection Hraise as <- _; eauto.
Qed.

(** *** The service record *)

(** X15.  What the fetch of the service record gives, by the answer of
    the upstream: the decoded body for a 200; a 500 for an error
    status, whichever it is; a 404 "not found" for any other status;
    and when the call itself raises, a 500 for an HTTP error and the
    exception as it is otherwise. *)
Theorem fetch_service_outcomes (service_name : string) (w w' : World) :
  (forall r,
     session_get (api_base +:+ "/services/databaseServices/name/" +:+ service_name)
       service_fetch_params w = (Ok r, w') ->
     (status_code r = 200%Z ->
      _fetch_service_metadata api_base service_name w = (response_json r, w')) /\
     (response_ok r = false ->
      _fetch_service_metadata api_base service_name w
      = (Raise (HTTPException 500
                  ("Failed to fetch service metadata: " +:+ http_error_msg r)), w')) /\
     (response_ok r = true -> status_code r <> 200%Z ->
      _fetch_service_metadata api_base service_name w
      = (Raise (HTTPException 404 ("Service '" +:+ service_name +:+ "' not found")),
         w'))) /\
  (forall e,
     session_get (api_base +:+ "/services/databaseServices/name/" +:+ service_name)
       service_fetch_params w = (Raise e, w') ->
     _fetch_service_metadata api_base service_name w
     = (Raise (if is_HTTPError e
               then HTTPException 500 ("Failed to fetch service metadata: " +:+ exn_str e)
               else e), w')).
Proof.
  split.
  - intros r Hsend. split; [|split].
    + intros Hstatus.
      unfold _fetch_service_metadata, try_except, bind, lift, raise_for_status, response_ok.
      rewrite Hsend, Hstatus. cbn.
      unfold response_json. destruct (body r); reflexivity.
    + now apply fetch_service_error_status.
    + now apply fetch_service_not_found.
  - intros e Hsend. unfold _fetch_service_metadata, try_except, bind.
    rewrite Hsend. destruct (is_HTTPError e); reflexivity.
Qed.

(** *** The health check *)

(** X16.  The health check never raises.  It makes one call, the
    version probe, and answers with a dict whose ["api_loaded"] is true
    and whose ["openmetadata_healthy"] is true exactly when the probe
    was answered with status 200; a probe that raises is reported in
    the dict. *)
Theorem health_check_never_raises (w : World) :
  exists fields,
    check_openmetadata_health w
    = (Ok (JObj fields), snd (session_get (api_base +:+ "/system/version") [] w)) /\
    dict_lookup fields "api_loaded" = Some (JBool true) /\
    dict_lookup fields "openmetadata_healthy"
    = Some (JBool match fst (session_get (api_base +:+ "/system/version") [] w) with
                  | Ok r => (status_code r =? 200)%Z
                  | Raise _ => false
                  end) /\
    (forall e, fst (session_get (api_base +:+ "/system/version") [] w) = Raise e ->
               dict_lookup fields "error" = Some (JStr (exn_str e))).
Proof.
  unfold check_openmetadata_health, try_except, bind.
  destruct (session_get _ _ w) as [[r|e] w1]; cbn [fst snd].
  - eexists. split; [reflexivity|]. cbn. repeat split. discriminate.
  - eexists. split; [reflexivity|]. cbn. repeat split.
    intros e0 He. now injection He as <-.
Qed.

(** *** Enrichment *)

(** X17.  A detail fetch answered 200 gives the decoded body, and
    "no enrichment" when the body cannot be decoded.  The walker builds
    the table from the outcome of the fetch when it is truthy and from
    the listing record when it is not: an empty object does not replace
    the listing record. *)
Theorem enrichment_uses_detail (base_url : string) (f1 f2 f3 : bool) :
  (forall table_id w w' r,
     session_get (base_url +:+ "/tables/" +:+ py_str table_id) (detail_params f1 f2 f3) w
       = (Ok r, w') ->
     status_code r = 200%Z ->
     _fetch_detailed_table_metadata base_url table_id f1 f2 f3 w
     = (Ok match body r with Some j => j | None => JNull end, w')) /\
  (forall d w w' j,
     py_truthy (dict_get d "id" JNull) = true ->
     _fetch_detailed_table_metadata base_url (dict_get d "id" JNull) f1 f2 f3 w
       = (Ok j, w') ->
     process_table base_url f1 f2 f3 (JObj d) w
     = (_create_table_model (if py_truthy j then j else JObj d) f1 f2 f3, w')).
Proof.
  split.
  - intros table_id w w' r Hsend Hstatus.
    unfold _fetch_detailed_table_metadata, try_except, bind, lift, response_json.
    rewrite Hsend, Hstatus. cbn. destruct (body r); reflexivity.
  - intros d w w' j Hid Hfetch. unfold process_table, bind, lift. cbn [py_get].
    rewrite Hid, Hfetch. reflexivity.
Qed.

(** *** The order of the walk *)

Lemma schema_model_record (schema : json) (l : list TableModel.t) (n : nat)
    (m : SchemaModel.t) :
  schema_model schema l n = Ok m -> schema_of_record schema m.
Proof.
  destruct schema as [| | | | | |fields]; try discriminate. cbn [schema_model].
  intros Hm. peel Hm. injection Hm as <-. exists fields. cbn.
  repeat split; eapply str_field_ok; eauto.
Qed.

Lemma database_model_record (database : json) (owners : list OwnerModel.t)
    (ss : list SchemaModel.t) (n : nat) (m : DatabaseModel.t) :
  database_model database owners ss n = Ok m -> database_of_record database m.
Proof.
  destruct database as [| | | | | |fields]; try discriminate. cbn [database_model].
  intros Hm. peel Hm. injection Hm as <-. exists fields. cbn.
  repeat split; eapply str_field_ok; eauto.
Qed.

Lemma process_database_appends (base_url : string) (f1 f2 f3 : bool)
    (st st' : walk_state) (database : json) (w w' : World) :
  process_database base_url f1 f2 f3 st database w = (Ok st', w') ->
  exists db,
    databases_list st' = (databases_list st ++ [db])%list /\
    database_of_record database db.
Proof.
  unfold process_database. intros Hrun.
  apply bind_ok in Hrun as (owners & w1 & _ & Hrun).
  apply bind_ok in Hrun as (ss & w2 & _ & Hrun).
  apply bind_ok in Hrun as (m & w3 & Hm & Hrun).
  apply lift_ok in Hm as [Hm%database_model_record _].
  apply ret_ok in Hrun as [-> _]. exists m. auto.
Qed.

Lemma foldM_appends (base_url : string) (f1 f2 f3 : bool) (items : list json) :
  forall st st' w w',
    foldM (process_database base_url f1 f2 f3) items st w = (Ok st', w') ->
    exists dbs,
      databases_list st' = (databases_list st ++ dbs)%list /\
      Forall2 database_of_record items dbs.
Proof.
  induction items as [|x xs IH]; intros st st' w w' Hrun.
  - apply ret_ok in Hrun as [-> _]. exists []. rewrite app_nil_r. split; [reflexivity|constructor].
  - cbn [foldM] in Hrun.
    apply bind_ok in Hrun as (st1 & w1 & Hstep & Hrun).
    apply process_database_appends in Hstep as (db & Hst1 & Hdb).
    apply IH in Hrun as (dbs & Hst' & Hdbs).
    exists (db :: dbs). rewrite Hst', Hst1, <- app_assoc. split; [reflexivity|].
    constructor; auto.
Qed.

(** X18.  The walker does not re-order: the schemas built for a
    database are the models of the records of the schemas listing, one
    for each and in the order of the upstream answer, and so are the
    databases of a service. *)
Theorem walker_follows_upstream (base_url : string) (f1 f2 f3 : bool)
    (w w1 w' : World) (r : Response) (body : list (string * json))
    (items : list json) :
  response_json r = Ok (JObj body) ->
  dict_lookup body "data" = Some (JArr items) ->
  (forall d l,
     session_get (base_url +:+ "/databaseSchemas")
       (schemas_listing_params (dict_get d "fullyQualifiedName" JNull)) w = (Ok r, w1) ->
     status_code r = 200%Z ->
     _process_database_schemas base_url (JObj d) f1 f2 f3 w = (Ok l, w') ->
     Forall2 schema_of_record items l) /\
  (forall service_name dbs stats,
     session_get (base_url +:+ "/databases") (databases_listing_params service_name) w
       = (Ok r, w1) ->
     _process_databases base_url service_name f1 f2 f3 w = (Ok (dbs, stats), w') ->
     Forall2 database_of_record items dbs).
Proof.
  intros Hjson Hdata. split.
  - intros d l Hsend Hstatus Hrun.
    unfold _process_database_schemas in Hrun. unfold bind at 1 in Hrun.
    unfold lift at 1 in Hrun. cbn [py_get] in Hrun.
    unfold bind at 1 in Hrun. rewrite Hsend, Hstatus in Hrun. cbn [Z.eqb Pos.eqb negb] in Hrun.
    unfold bind at 1 in Hrun. unfold lift at 1 in Hrun. rewrite Hjson in Hrun.
    unfold bind at 1 in Hrun. unfold lift at 1 in Hrun. cbn [py_get] in Hrun.
    unfold dict_get in Hrun. rewrite Hdata in Hrun.
    unfold bind at 1 in Hrun. unfold lift at 1 in Hrun. cbn [py_iter] in Hrun.
    eapply (mapM_M_Forall2 schema_of_record); [|exact Hrun].
    intros x w0 a w0' Hx. unfold process_schema in Hx.
    apply bind_ok in Hx as (p & w2 & _ & Hx).
    apply lift_ok in Hx as [Hx _]. eapply schema_model_record; eauto.
  - intros service_name dbs stats Hsend Hrun.
    unfold _process_databases in Hrun. unfold bind at 1 in Hrun.
    rewrite Hsend in Hrun.
    apply bind_ok in Hrun as (u & w2 & _ & Hrun).
    apply bind_ok in Hrun as (databases_data & w3 & Hd & Hrun).
    apply lift_ok in Hd as [Hd _]. rewrite Hjson in Hd. injection Hd as <-.
    apply bind_ok in Hrun as (databases & w4 & Hdbs & Hrun).
    apply lift_ok in Hdbs as [Hdbs _]. cbn [py_get] in Hdbs. unfold dict_get in Hdbs.
    rewrite Hdata in Hdbs. injection Hdbs as <-.
    apply bind_ok in Hrun as (n & w5 & _ & Hrun).
    apply bind_ok in Hrun as (its & w6 & Hits & Hrun).
    apply lift_ok in Hits as [Hits _]. cbn [py_iter] in Hits. injection Hits as <-.
    apply bind_ok in Hrun as (st & w7 & Hfold & Hrun).
    apply ret_ok in Hrun as [Hpair _]. injection Hpair as -> _.
    apply foldM_appends in Hfold as (dbs' & Hlist & Hall).
    cbn in Hlist. now rewrite Hlist.
Qed.

(** *** The summary of a response *)

Lemma list_sum_ones {A} (l : list A) : list_sum (map (fun _ => 1) l) = length l.
Proof. induction l as [|x l IH]; simpl; [reflexivity | now rewrite IH]. Qed.

Lemma filter_length_le {A} (p : A -> bool) (l : list A) :
  length (List.filter p l) <= length l.
Proof.
  induction l as [|x l IH]; simpl; [lia|]. destruct (p x); simpl; lia.
Qed.

(** X19.  The summary of an extraction response describes the tree of
    that response: [total_views] is the number of its tables whose type
    contains "view" in any letter case, and is at most [total_tables];
    [total_owners] and [total_tags] are the numbers of distinct
    non-empty owner names and tag identifiers of its service and
    databases; and the timestamp is the clock reading followed by
    ["Z"]. *)
Theorem response_summary_describes_tree (service_name : string) (f1 f2 f3 : bool)
    (w w' : World) (r : DatabaseMetadataResponse.t) :
  extract_database_metadata service_name f1 f2 f3 w = (Ok r, w') ->
  let s := DatabaseMetadataResponse.summary r in
  let svc := DatabaseMetadataResponse.service r in
  let dbs := DatabaseMetadataResponse.databases r in
  MetadataSummary.total_views s = length (List.filter is_view (tables_of dbs)) /\
  MetadataSummary.total_views s <= MetadataSummary.total_tables s /\
  MetadataSummary.total_owners s = distinct_nonempty (spec_owner_names svc dbs) /\
  MetadataSummary.total_tags s = distinct_nonempty (spec_tag_fqns svc dbs) /\
  MetadataSummary.data_extraction_timestamp s = utcnow_isoformat w' +:+ "Z".
Proof.
  intros Hrun. pose proof (extract_counts _ _ _ _ _ _ _ Hrun) as (_ & _ & _ & Htables & _).
  unfold extract_database_metadata in Hrun.
  apply try_except_raising_ok in Hrun.
  - apply bind_ok in Hrun as (service_data & w1 & _ & Hrun).
    apply bind_ok in Hrun as (u & w2 & _ & Hrun).
    apply bind_ok in Hrun as (svc & w3 & _ & Hrun).
    apply bind_ok in Hrun as ([dbs stats] & w4 & _ & Hrun).
    apply bind_ok in Hrun as (now & w5 & Hnow & Hrun).
    apply ret_ok in Hrun as [-> ->].
    unfold utcnow in Hnow. injection Hnow as <- <-.
    cbn [DatabaseMetadataResponse.summary DatabaseMetadataResponse.service
         DatabaseMetadataResponse.databases fst snd] in *.
    destruct (summary_sets svc dbs stats (utcnow_isoformat w4)) as [Ho Ht].
    rewrite Ho, Ht, !size_names_set.
    assert (Hviews : MetadataSummary.total_views
                       (_create_metadata_summary svc dbs stats (utcnow_isoformat w4))
                     = length (List.filter is_view (tables_of dbs)))
      by (cbn; apply list_sum_ones).
    rewrite Hviews, Htables. repeat split. apply filter_length_le.
  - intros e h w1 x w2 Hh. destruct e; try discriminate; injection Hh as <-; discriminate.
Qed.

End EndpointProperties.

(** An instance of [process_table_no_id]: a listed table without an
    identifier, against an upstream that would refuse any call. *)
Lemma process_table_no_id_witness :
  @process_table scripted scripted_base false false false
    (JObj [("name", JStr "staging")]) ([], [])
  = (_create_table_model (JObj [("name", JStr "staging")]) false false false, ([], [])).
Proof.
  apply (@process_table_no_id scripted scripted_base false false false
           [("name", JStr "staging")] ([], [])).
  reflexivity.
Defined.

(** An instance of [invalid_service_type_rejected]. *)
Lemma invalid_service_type_witness :
  exists detail,
    run (create_database_service
           (DatabaseServicePayload.mk "crm" "NotARealDB" JNull None None None None))
        [json_response 200 "OK" JNull]
    = (Raise (HTTPException 400 detail), []).
Proof.
  eexists. unfold run.
  rewrite (@invalid_service_type_rejected scripted
             (DatabaseServicePayload.mk "crm" "NotARealDB" JNull None None None None)
             ([json_response 200 "OK" JNull], []) eq_refl).
  reflexivity.
Defined.

(** An instance of [existing_service_short_circuits]. *)
Lemma existing_service_witness :
  exists w',
    @create_database_service scripted crm_payload
      ([json_response 200 "OK" (JObj [("id", JStr "7f3a")])], [])
    = (Ok {| MessageResponse.message :=
               "Database service 'crm' already exists in OpenMetadata with ID: 7f3a" |},
       w').
Proof.
  eexists.
  refine (eq_trans
            (@existing_service_short_circuits scripted crm_payload
               ([json_response 200 "OK" (JObj [("id", JStr "7f3a")])], []) _
               (mkResponse 200 "OK" scripted_base (Some (JObj [("id", JStr "7f3a")])) "")
               [("id", JStr "7f3a")] eq_refl eq_refl eq_refl eq_refl) _).
  reflexivity.
Defined.

(** An instance of [creation_outcomes]: a 409 on creation, and a 201. *)
Lemma creation_outcomes_witness :
  (exists detail w',
     @create_database_service scripted crm_payload
       ([json_response 404 "Not Found" JNull; json_response 409 "Conflict" JNull], [])
     = (Raise (HTTPException 500 detail), w')) /\
  (exists w',
     @create_database_service scripted crm_payload
       ([json_response 404 "Not Found" JNull;
         json_response 201 "Created" (JObj [("id", JStr "7f3a"); ("name", JStr "crm")])], [])
     = (Ok {| MessageResponse.message :=
                "Database service 'crm' created successfully in OpenMetadata with ID: 7f3a" |},
        w')).
Proof.
  split.
  - eexists _, _.
    eapply (proj1 (@creation_outcomes scripted crm_payload
                     ([json_response 404 "Not Found" JNull;
                       json_response 409 "Conflict" JNull], [])
                     _ _ _ _ eq_refl eq_refl _ eq_refl)).
    reflexivity.
    Unshelve. cbn. lia.
  - eexists.
    eapply (proj2 (@creation_outcomes scripted crm_payload
                     ([json_response 404 "Not Found" JNull;
                       json_response 201 "Created"
                         (JObj [("id", JStr "7f3a"); ("name", JStr "crm")])], [])
                     _ _ _ _ eq_refl eq_refl _ eq_refl)
              [("id", JStr "7f3a"); ("name", JStr "crm")]); try reflexivity.
    Unshelve. cbn. lia.
Defined.

(** An instance of [creation_success_messages]. *)
Lemma creation_success_messages_witness :
  (exists existing_id,
     {| MessageResponse.message :=
          "Database service 'crm' already exists in OpenMetadata with ID: 7f3a" |}
     = {| MessageResponse.message :=
            "Database service '" +:+ DatabaseServicePayload.name crm_payload
            +:+ "' already exists in OpenMetadata with ID: "
            +:+ str_of_scalar existing_id |}) \/
  (exists created_name created_id,
     {| MessageResponse.message :=
          "Database service 'crm' already exists in OpenMetadata with ID: 7f3a" |}
     = {| MessageResponse.message :=
            "Database service '" +:+ str_of_scalar created_name
            +:+ "' created successfully in OpenMetadata with ID: "
            +:+ str_of_scalar created_id |}).
Proof.
  eapply (@creation_success_messages scripted crm_payload
            ([json_response 200 "OK" (JObj [("id", JStr "7f3a")])], [])).
  reflexivity.
Defined.

(** An instance of [endpoints_raise_http_exception]: the table listing
    against an upstream that refuses the connection. *)
Lemma endpoints_raise_witness :
  exists cause,
    HTTPException 500 "Failed to list tables: Connection refused"
    = HTTPException 500 ("Failed to list tables: " +:+ cause).
Proof.
  eapply (proj2 (proj2 (@endpoints_raise_http_exception scripted ([], [])
                          (snd (@get_service_tables scripted "crm" None None true ([], [])))
                          _))
            "crm" None None true).
  reflexivity.
Defined.

(** An instance of [fetch_service_outcomes]: an answer 204. *)
Lemma fetch_service_outcomes_witness :
  exists w',
    @_fetch_service_metadata scripted scripted_base "crm"
      ([json_response 204 "No Content" JNull], [])
    = (Raise (HTTPException 404 "Service 'crm' not found"), w').
Proof.
  eexists.
  edestruct (proj1 (@fetch_service_outcomes scripted "crm"
                      ([json_response 204 "No Content" JNull], [])
                      (snd (@_fetch_service_metadata scripted scripted_base "crm"
                              ([json_response 204 "No Content" JNull], [])))))
    as (_ & _ & Hnot_found); [reflexivity|].
  apply Hnot_found; [reflexivity | cbn; lia].
Defined.

(** An instance of [health_check_never_raises]: the connection is
    refused. *)
Lemma health_check_witness :
  exists fields,
    fst (run check_openmetadata_health []) = Ok (JObj fields) /\
    dict_lookup fields "openmetadata_healthy" = Some (JBool false) /\
    dict_lookup fields "error" = Some (JStr "Connection refused").
Proof.
  destruct (@health_check_never_raises scripted ([], []))
    as (fields & Hrun & _ & Hhealthy & Herror).
  exists fields. split; [unfold run; now rewrite Hrun|].
  split; [exact Hhealthy | exact (Herror _ eq_refl)].
Defined.

(** An instance of [enrichment_uses_detail]: the detail fetch of
    [people] is answered with a record that has a description. *)
Lemma enrichment_uses_detail_witness :
  exists w',
    @process_table scripted scripted_base false false false (JObj people_table)
      ([json_response 200 "OK"
          (JObj (("description", JStr "All employees") :: people_table))], [])
    = (_create_table_model
         (JObj (("description", JStr "All employees") :: people_table))
         false false false, w').
Proof.
  destruct (@enrichment_uses_detail scripted scripted_base false false false)
    as [Hfetch Huse].
  eexists.
  eapply (Huse people_table
            ([json_response 200 "OK"
                (JObj (("description", JStr "All employees") :: people_table))], [])
            _ (JObj (("description", JStr "All employees") :: people_table)) eq_refl).
  eapply (Hfetch (JStr "t1")
            ([json_response 200 "OK"
                (JObj (("description", JStr "All employees") :: people_table))], [])
            _
            (mkResponse 200 "OK" scripted_base
               (Some (JObj (("description", JStr "All employees") :: people_table))) ""));
    reflexivity.
Defined.

(** An instance of [walker_follows_upstream]: the schemas of [hr]. *)
Lemma walker_follows_upstream_witness :
  exists l w',
    @_process_database_schemas scripted scripted_base (JObj hr_database)
      false false false
      ([json_response 200 "OK" (JObj [("data", JArr [JObj public_schema; JObj audit_schema])]);
        json_response 503 "Service Unavailable" JNull;
        json_response 503 "Service Unavailable" JNull], [])
    = (Ok l, w') /\
    Forall2 schema_of_record [JObj public_schema; JObj audit_schema] l /\
    map SchemaModel.name l = ["public"; "audit"].
Proof.
  eexists _, _. split; [reflexivity|]. split; [|reflexivity].
  eapply (proj1 (@walker_follows_upstream scripted scripted_base false false false
                   ([json_response 200 "OK"
                       (JObj [("data", JArr [JObj public_schema; JObj audit_schema])]);
                     json_response 503 "Service Unavailable" JNull;
                     json_response 503 "Service Unavailable" JNull], [])
                   _ _
                   (mkResponse 200 "OK" scripted_base
                      (Some (JObj [("data", JArr [JObj public_schema; JObj audit_schema])])) "")
                   [("data", JArr [JObj public_schema; JObj audit_schema])]
                   [JObj public_schema; JObj audit_schema] eq_refl eq_refl)
            hr_database); reflexivity.
Defined.

(** An instance of [response_summary_describes_tree]: the extraction
    of [walk_script]. *)
Lemma response_summary_witness :
  exists r w',
    @extract_database_metadata scripted "crm" false false false (walk_script, [])
    = (Ok r, w') /\
    MetadataSummary.total_views (DatabaseMetadataResponse.summary r)
    <= MetadataSummary.total_tables (DatabaseMetadataResponse.summary r) /\
    MetadataSummary.total_owners (DatabaseMetadataResponse.summary r) = 1.
Proof.
  eexists _, _. split; [vm_compute; reflexivity|].
  pose proof (@response_summary_describes_tree scripted "crm" false false false
                (walk_script, []) _ _ ltac:(vm_compute; reflexivity))
    as (_ & Hviews & Howners & _).
  split; [exact Hviews|]. rewrite Howners. vm_compute. reflexivity.
Defined.
